(** * Mecanica-Simulare: collision detection, collision resolution and the
      fixed-step integrator, embedded in Rocq

    Sources embedded here:
    - [src/components/GameObject.js]: the [GameObject] class and the
      [Collider] classes ([BoxCollider], [CircleCollider],
      [TriangleCollider]) with [isCollidingWith], [pointInTriangle] and
      [getClosestSurfaceNormal];
    - [src/unnamed/part_000]: the simulation script ([isColliding],
      [closestPointOnSegment], [closestPointOnTriangle],
      [resolveCollision], [update] and its constants).

    Numbers.  A JavaScript number is an IEEE-754 binary64 value and is
    modelled by Rocq's primitive [float]: the same format, with rounding
    to nearest even, overflow to the infinities, the two zeros and NaN.
    [+], [-], [*], [/] and the comparisons are the primitive operations;
    a decimal literal denotes the nearest binary64 value, as it does in
    JavaScript.  [Math.hypot] and [Math.atan2] are left to the engine by
    the language standard ("implementation-approximated"); the model
    takes them from a [Math.Engine] and fixes only the cases that the
    standard fixes.

    Objects.  A function that mutates its arguments returns their new
    states; the two arguments of [resolveCollision] are distinct objects,
    as the pairs [i < j] of [update] are.  The vertices of a triangle are
    a triple.  A call that throws is [Throw].  Rendering, image loading
    and the pacing of ticks are outside the model. *)

From Stdlib Require Import Floats ZArith QArith Lia Bool List String.
From stdpp Require Import base list.
Import ListNotations.

(** Decimal literals are read as JavaScript reads them. *)
Set Warnings "-inexact-float".

Local Open Scope float_scope.

(* ================================================================== *)
(** ** JavaScript numbers *)
(* ================================================================== *)

(** [a > b] and [a >= b]. *)
Notation "a >? b" := (PrimFloat.ltb b a)
  (at level 70, no associativity) : float_scope.
Notation "a >=? b" := (PrimFloat.leb b a)
  (at level 70, no associativity) : float_scope.

Module Math.

(** What the standard leaves to the implementation: the value of
    [Math.hypot] on finite arguments that are not all zero, and
    [Math.atan2]. *)
Class Engine : Type := {
  hypot_approx : float -> float -> float;
  atan2 : float -> float -> float
}.

(** [Math.abs] *)
Definition abs (a : float) : float := PrimFloat.abs a.

(** [Math.max] and [Math.min] of two numbers: NaN as soon as one
    argument is NaN; +0 counts as larger than -0. *)
Definition max (a b : float) : float :=
  if is_nan a || is_nan b then nan
  else if a <? b then b
  else if b <? a then a
  else if get_sign a then b else a.

Definition min (a b : float) : float :=
  if is_nan a || is_nan b then nan
  else if a <? b then a
  else if b <? a then b
  else if get_sign a then a else b.

(** [Math.hypot] of two numbers: +Infinity when an argument is
    infinite, else NaN when one is NaN, else +0 when both are zeros,
    else the engine's approximation of the square root of the sum of the
    squares. *)
Definition hypot {E : Engine} (a b : float) : float :=
  if is_infinity a || is_infinity b then infinity
  else if is_nan a || is_nan b then nan
  else if is_zero a && is_zero b then 0
  else hypot_approx a b.

(** [Math.PI] *)
Definition PI : float := 3.141592653589793.

End Math.

(* ================================================================== *)
(** ** Data model *)
(* ================================================================== *)

(** A JavaScript object [{x, y}]: a vertex, a force or a normal. *)
Module Point.
Record t : Type := mk { x : float; y : float }.
End Point.

(** The three collider classes; the [type] tag of the base class
    ('box', 'circle', 'triangle') is the constructor.  A triangle holds
    its "Array of 3 points". *)
Inductive Collider : Type :=
| BoxCollider (offsetX offsetY width height : float)
| CircleCollider (offsetX offsetY radius : float)
| TriangleCollider (vertices : Point.t * Point.t * Point.t)
    (offsetX offsetY : float).

(** [class GameObject], GameObject.js lines 3-29. *)
Record GameObject : Type := mkGameObject {
  x : float;
  y : float;
  width : float;
  height : float;
  spriteSrc : string;
  color : string;
  hasGravity : bool;
  vx : float;
  vy : float;
  ax : float;
  ay : float;
  mass : float;
  forces : list Point.t;
  collider : option Collider;
  rotation : float
}.

(** Assignments to one field of an object. *)
Definition set_x (v : float) (o : GameObject) : GameObject :=
  mkGameObject v (y o) (width o) (height o) (spriteSrc o) (color o)
    (hasGravity o) (vx o) (vy o) (ax o) (ay o) (mass o) (forces o)
    (collider o) (rotation o).
Definition set_y (v : float) (o : GameObject) : GameObject :=
  mkGameObject (x o) v (width o) (height o) (spriteSrc o) (color o)
    (hasGravity o) (vx o) (vy o) (ax o) (ay o) (mass o) (forces o)
    (collider o) (rotation o).
Definition set_vx (v : float) (o : GameObject) : GameObject :=
  mkGameObject (x o) (y o) (width o) (height o) (spriteSrc o) (color o)
    (hasGravity o) v (vy o) (ax o) (ay o) (mass o) (forces o)
    (collider o) (rotation o).
Definition set_vy (v : float) (o : GameObject) : GameObject :=
  mkGameObject (x o) (y o) (width o) (height o) (spriteSrc o) (color o)
    (hasGravity o) (vx o) v (ax o) (ay o) (mass o) (forces o)
    (collider o) (rotation o).
Definition set_ax (v : float) (o : GameObject) : GameObject :=
  mkGameObject (x o) (y o) (width o) (height o) (spriteSrc o) (color o)
    (hasGravity o) (vx o) (vy o) v (ay o) (mass o) (forces o)
    (collider o) (rotation o).
Definition set_ay (v : float) (o : GameObject) : GameObject :=
  mkGameObject (x o) (y o) (width o) (height o) (spriteSrc o) (color o)
    (hasGravity o) (vx o) (vy o) (ax o) v (mass o) (forces o)
    (collider o) (rotation o).
Definition set_forces (v : list Point.t) (o : GameObject) : GameObject :=
  mkGameObject (x o) (y o) (width o) (height o) (spriteSrc o) (color o)
    (hasGravity o) (vx o) (vy o) (ax o) (ay o) (mass o) v
    (collider o) (rotation o).
Definition set_rotation (v : float) (o : GameObject) : GameObject :=
  mkGameObject (x o) (y o) (width o) (height o) (spriteSrc o) (color o)
    (hasGravity o) (vx o) (vy o) (ax o) (ay o) (mass o) (forces o)
    (collider o) v.

Arguments set_x v o /.
Arguments set_y v o /.
Arguments set_vx v o /.
Arguments set_vy v o /.
Arguments set_ax v o /.
Arguments set_ay v o /.
Arguments set_forces v o /.
Arguments set_rotation v o /.

(** A call either completes with a value or throws. *)
Inductive completion (A : Type) : Type :=
| Normal (v : A)
| Throw.
Arguments Normal {A} v.
Arguments Throw {A}.

(** [f] applied to the value of a call that completes. *)
Definition cmap {A B : Type} (f : A -> B) (c : completion A) : completion B :=
  match c with
  | Normal v => Normal (f v)
  | Throw => Throw
  end.

(** [new GameObject(x, y, width, height, mass, collider)]: the class
    field initialisers, then the constructor body.  The body holds six
    assignments and no [throw]. *)
Definition new_GameObject (x0 y0 width0 height0 mass0 : float)
    (collider0 : option Collider) : completion GameObject :=
  Normal {| x := x0; y := y0; width := width0; height := height0;
            spriteSrc := EmptyString; color := "#ffffff"%string;
            hasGravity := true;
            vx := 0; vy := 0; ax := 0; ay := 0;
            mass := mass0; forces := []; collider := collider0;
            rotation := 0 |}.

(* ================================================================== *)
(** ** Collision detection (GameObject.js, the collider classes) *)
(* ================================================================== *)

(** [vertices.map(v => ({x: obj.x + offsetX + v.x, y: obj.y + offsetY + v.y}))] *)
Definition worldVertices (vertices : Point.t * Point.t * Point.t)
    (offsetX offsetY : float) (obj : GameObject)
  : Point.t * Point.t * Point.t :=
  let f := fun v : Point.t =>
    Point.mk (x obj + offsetX + Point.x v) (y obj + offsetY + Point.y v) in
  let '(v0, v1, v2) := vertices in (f v0, f v1, f v2).

(** The pairs [(verts[i], verts[(i + 1) % 3])] for [i = 0, 1, 2]. *)
Definition edges (verts : Point.t * Point.t * Point.t)
  : list (Point.t * Point.t) :=
  let '(v0, v1, v2) := verts in [(v0, v1); (v1, v2); (v2, v0)].

Definition vertexList (verts : Point.t * Point.t * Point.t) : list Point.t :=
  let '(v0, v1, v2) := verts in [v0; v1; v2].

(** Body of the edge loop of the circle/triangle test (lines 129-169 of
    [CircleCollider.isCollidingWith], repeated at lines 254-294 of
    [TriangleCollider.isCollidingWith]): is the point of the edge
    nearest to the centre closer than the radius? *)
Definition circleTouchesEdge {E : Math.Engine} (cx cy radius : float)
    (e : Point.t * Point.t)
  : bool :=
  let (v1, v2) := e in
  let edge := Point.mk (Point.x v2 - Point.x v1) (Point.y v2 - Point.y v1) in
  let toCircle := Point.mk (cx - Point.x v1) (cy - Point.y v1) in
  let edgeLength := Math.hypot (Point.x edge) (Point.y edge) in
  let edgeUnit :=
    Point.mk (Point.x edge / edgeLength) (Point.y edge / edgeLength) in
  let projection :=
    Point.x toCircle * Point.x edgeUnit + Point.y toCircle * Point.y edgeUnit in
  let projectionClamped := Math.max 0 (Math.min projection edgeLength) in
  let closestPoint :=
    Point.mk (Point.x v1 + Point.x edgeUnit * projectionClamped)
             (Point.y v1 + Point.y edgeUnit * projectionClamped) in
  let dx := cx - Point.x closestPoint in
  let dy := cy - Point.y closestPoint in
  let distanceSquared := dx * dx + dy * dy in
  distanceSquared <? radius * radius.

Module TriangleCollider.

(** [static pointInTriangle(px, py, v0, v1, v2)], lines 185-195. *)
Definition pointInTriangle (px py : float) (v0 v1 v2 : Point.t) : bool :=
  let dX := px - Point.x v2 in
  let dY := py - Point.y v2 in
  let dX21 := Point.x v2 - Point.x v1 in
  let dY12 := Point.y v1 - Point.y v2 in
  let D :=
    dY12 * (Point.x v0 - Point.x v2) + dX21 * (Point.y v0 - Point.y v2) in
  let s := dY12 * dX + dX21 * dY in
  let t := (Point.y v2 - Point.y v0) * dX + (Point.x v0 - Point.x v2) * dY in
  if D <? 0 then (s <=? 0) && (t <=? 0) && (s + t >=? D)
  else (s >=? 0) && (t >=? 0) && (s + t <=? D).

(** [pointInTriangle(px, py, ...verts)] *)
Definition pointInVerts (px py : float) (verts : Point.t * Point.t * Point.t)
  : bool :=
  let '(v0, v1, v2) := verts in pointInTriangle px py v0 v1 v2.

(** [isCollidingWith(other, selfObj, otherObj)], lines 197-298. *)
Definition isCollidingWith {E : Math.Engine}
    (vertices : Point.t * Point.t * Point.t)
    (offsetX offsetY : float) (other : Collider) (selfObj otherObj : GameObject)
  : bool :=
  let vertsA := worldVertices vertices offsetX offsetY selfObj in
  match other with
  | TriangleCollider oVertices oOffsetX oOffsetY =>
      let vertsB := worldVertices oVertices oOffsetX oOffsetY otherObj in
      if existsb (fun va => pointInVerts (Point.x va) (Point.y va) vertsB)
           (vertexList vertsA) then true
      else if existsb (fun vb => pointInVerts (Point.x vb) (Point.y vb) vertsA)
           (vertexList vertsB) then true
      else false
  | BoxCollider oOffsetX oOffsetY oWidth oHeight =>
      let bx := x otherObj + oOffsetX in
      let by_ := y otherObj + oOffsetY in
      if existsb (fun va =>
             (Point.x va >=? bx) && (Point.x va <=? bx + oWidth) &&
             (Point.y va >=? by_) && (Point.y va <=? by_ + oHeight))
           (vertexList vertsA) then true
      else
        let boxCorners :=
          [ Point.mk bx by_;
            Point.mk (bx + oWidth) by_;
            Point.mk bx (by_ + oHeight);
            Point.mk (bx + oWidth) (by_ + oHeight) ] in
        if existsb (fun corner =>
               pointInVerts (Point.x corner) (Point.y corner) vertsA)
             boxCorners then true
        else false
  | CircleCollider oOffsetX oOffsetY oRadius =>
      let cx := x otherObj + oOffsetX + oRadius in
      let cy := y otherObj + oOffsetY + oRadius in
      let verts := worldVertices vertices offsetX offsetY selfObj in
      if pointInVerts cx cy verts then true
      else if existsb (circleTouchesEdge cx cy oRadius) (edges verts) then true
      else false
  end.

(** [getClosestSurfaceNormal(point, selfObj)], lines 299-328.  The loop
    state is [(minDist, closestNormal)]. *)
Definition getClosestSurfaceNormal {E : Math.Engine}
    (vertices : Point.t * Point.t * Point.t)
    (offsetX offsetY : float) (point : Point.t) (selfObj : GameObject)
  : Point.t :=
  let verts := worldVertices vertices offsetX offsetY selfObj in
  let step := fun (st : float * Point.t) (e : Point.t * Point.t) =>
    let (minDist, closestNormal) := st in
    let (v1, v2) := e in
    let edge := Point.mk (Point.x v2 - Point.x v1) (Point.y v2 - Point.y v1) in
    let normal := Point.mk (Point.y edge) (- Point.x edge) in
    let len := Math.hypot (Point.x normal) (Point.y normal) in
    let normal := Point.mk (Point.x normal / len) (Point.y normal / len) in
    let px := Point.x point - Point.x v1 in
    let py := Point.y point - Point.y v1 in
    let dist := px * Point.x normal + py * Point.y normal in
    if Math.abs dist <? Math.abs minDist then (dist, normal) else st in
  snd (fold_left step (edges verts) (infinity, Point.mk 0 0)).

End TriangleCollider.

Module BoxCollider.

(** [isCollidingWith(other, selfObj, otherObj)], lines 52-85. *)
Definition isCollidingWith {E : Math.Engine}
    (offsetX offsetY width height : float)
    (other : Collider) (selfObj otherObj : GameObject) : bool :=
  match other with
  | BoxCollider bOffsetX bOffsetY bWidth bHeight =>
      let ax := x selfObj + offsetX in
      let ay := y selfObj + offsetY in
      let bx := x otherObj + bOffsetX in
      let by_ := y otherObj + bOffsetY in
      (ax <? bx + bWidth) && (ax + width >? bx) &&
      (ay <? by_ + bHeight) && (ay + height >? by_)
  | CircleCollider cOffsetX cOffsetY radius =>
      let rx := x selfObj + offsetX in
      let ry := y selfObj + offsetY in
      let cx := x otherObj + cOffsetX + radius in
      let cy := y otherObj + cOffsetY + radius in
      let closestX := Math.max rx (Math.min cx (rx + width)) in
      let closestY := Math.max ry (Math.min cy (ry + height)) in
      let dx := cx - closestX in
      let dy := cy - closestY in
      (dx * dx + dy * dy) <? (radius * radius)
  | TriangleCollider vertices tOffsetX tOffsetY =>
      TriangleCollider.isCollidingWith vertices tOffsetX tOffsetY
        (BoxCollider offsetX offsetY width height) otherObj selfObj
  end.

End BoxCollider.

Module CircleCollider.

(** [isCollidingWith(other, selfObj, otherObj)], lines 97-173. *)
Definition isCollidingWith {E : Math.Engine} (offsetX offsetY radius : float)
    (other : Collider) (selfObj otherObj : GameObject) : bool :=
  match other with
  | CircleCollider bOffsetX bOffsetY bRadius =>
      let ax := x selfObj + offsetX + radius in
      let ay := y selfObj + offsetY + radius in
      let bx := x otherObj + bOffsetX + bRadius in
      let by_ := y otherObj + bOffsetY + bRadius in
      let dx := ax - bx in
      let dy := ay - by_ in
      let rSum := radius + bRadius in
      (dx * dx + dy * dy) <? (rSum * rSum)
  | BoxCollider bOffsetX bOffsetY bWidth bHeight =>
      BoxCollider.isCollidingWith bOffsetX bOffsetY bWidth bHeight
        (CircleCollider offsetX offsetY radius) otherObj selfObj
  | TriangleCollider vertices tOffsetX tOffsetY =>
      let cx := x selfObj + offsetX + radius in
      let cy := y selfObj + offsetY + radius in
      let verts := worldVertices vertices tOffsetX tOffsetY otherObj in
      if TriangleCollider.pointInVerts cx cy verts then true
      else if existsb (circleTouchesEdge cx cy radius) (edges verts) then true
      else false
  end.

End CircleCollider.

(** The method call [c.isCollidingWith(other, selfObj, otherObj)],
    dispatched on the class of [c]. *)
Definition isCollidingWith {E : Math.Engine} (c other : Collider)
    (selfObj otherObj : GameObject)
  : bool :=
  match c with
  | BoxCollider offsetX offsetY w h =>
      BoxCollider.isCollidingWith offsetX offsetY w h other selfObj otherObj
  | CircleCollider offsetX offsetY radius =>
      CircleCollider.isCollidingWith offsetX offsetY radius other
        selfObj otherObj
  | TriangleCollider vertices offsetX offsetY =>
      TriangleCollider.isCollidingWith vertices offsetX offsetY other
        selfObj otherObj
  end.

(** [function isColliding(a, b)], part_000 lines 89-94. *)
Definition isColliding {E : Math.Engine} (a b : GameObject) : bool :=
  match collider a, collider b with
  | Some ca, Some cb => isCollidingWith ca cb a b
  | _, _ => false
  end.

(* ================================================================== *)
(** ** Collision resolution (part_000) *)
(* ================================================================== *)

(** [function closestPointOnSegment(px, py, ax, ay, bx, by)], lines 97-106. *)
Definition closestPointOnSegment (px py ax ay bx by_ : float) : Point.t :=
  let abx := bx - ax in
  let aby := by_ - ay in
  let apx := px - ax in
  let apy := py - ay in
  let abLenSq := abx * abx + aby * aby in
  let t := (apx * abx + apy * aby) / abLenSq in
  let t := Math.max 0 (Math.min 1 t) in
  Point.mk (ax + abx * t) (ay + aby * t).

(** One turn of the loop of [closestPointOnTriangle] on the state
    [(closest, minDistSq)]; [closest] starts as [null]. *)
Definition closestStep (px py : float) (st : option Point.t * float)
    (e : Point.t * Point.t) : option Point.t * float :=
  let (closest, minDistSq) := st in
  let (v1, v2) := e in
  let pt := closestPointOnSegment px py (Point.x v1) (Point.y v1)
              (Point.x v2) (Point.y v2) in
  let dx := px - Point.x pt in
  let dy := py - Point.y pt in
  let distSq := dx * dx + dy * dy in
  if distSq <? minDistSq then (Some pt, distSq) else st.

(** [function closestPointOnTriangle(px, py, verts)], lines 108-128;
    [None] is [null]. *)
Definition closestPointOnTriangle (px py : float)
    (verts : Point.t * Point.t * Point.t) : option Point.t :=
  let (closest, _) :=
    fold_left (closestStep px py) (edges verts) (None, infinity) in
  if TriangleCollider.pointInVerts px py verts then Some (Point.mk px py)
  else closest.

(** [resolveCollision], lines 135-164 with the triangle in [a] and the
    circle in [b]; lines 187-216 are the same statements with [a] and
    [b] exchanged.  [tri] owns the triangle, [c] the circle; the result
    is the circle's object.  Reading [closest.x] of [null] throws. *)
Definition resolveTriangleCircle {E : Math.Engine} (tri : GameObject)
    (vertices : Point.t * Point.t * Point.t) (tOffsetX tOffsetY : float)
    (c : GameObject) (cOffsetX cOffsetY radius : float)
  : completion GameObject :=
  let verts := worldVertices vertices tOffsetX tOffsetY tri in
  let cx := x c + cOffsetX + radius in
  let cy := y c + cOffsetY + radius in
  match closestPointOnTriangle cx cy verts with
  | None => Throw
  | Some closest =>
      let dx := cx - Point.x closest in
      let dy := cy - Point.y closest in
      let dist := Math.hypot dx dy in
      let overlap := radius - dist in
      if overlap >? 0 then
        let nx := dx / dist in
        let ny := dy / dist in
        let c := set_x (x c + nx * overlap) c in
        let c := set_y (y c + ny * overlap) c in
        let vDotN := vx c * nx + vy c * ny in
        if vDotN <? 0 then
          let damping := 1 in
          let c := set_vx ((vx c - vDotN * nx) * damping) c in
          let c := set_vy ((vy c - vDotN * ny) * damping) c in
          Normal c
        else Normal c
      else Normal c
  end.

(** [resolveCollision], lines 166-183 (and 218-235 with [a] and [b]
    exchanged): the box [b] pushed off the triangle of [tri]. *)
Definition resolveTriangleBox {E : Math.Engine} (tri : GameObject)
    (vertices : Point.t * Point.t * Point.t) (tOffsetX tOffsetY : float)
    (b : GameObject) : GameObject :=
  let center := Point.mk (x b + width b / 2) (y b + height b / 2) in
  let normal :=
    TriangleCollider.getClosestSurfaceNormal vertices tOffsetX tOffsetY
      center tri in
  let b := set_x (x b + Point.x normal * 2) b in
  let b := set_y (y b + Point.y normal * 2) b in
  let vDotN := vx b * Point.x normal + vy b * Point.y normal in
  let b :=
    if vDotN <? 0 then
      let b := set_vx (vx b - vDotN * Point.x normal) b in
      set_vy (vy b - vDotN * Point.y normal) b
    else b in
  set_rotation
    (Math.atan2 (Point.y normal) (Point.x normal) - Math.PI / 2) b.

(** One of the two guarded blocks at the head of [resolveCollision]
    (lines 134-184 with [t := a], [d := b]; lines 186-236 with [t := b],
    [d := a]).  [Some r]: the block returned, [r] is the new state of
    [d] ([t] is not assigned to).  [None]: control fell out of the
    block. *)
Definition triangleBranch {E : Math.Engine} (t d : GameObject)
  : option (completion GameObject) :=
  match collider t, collider d with
  | Some (TriangleCollider vertices tOffsetX tOffsetY), Some cd =>
      if hasGravity d then
        match cd with
        | CircleCollider cOffsetX cOffsetY radius =>
            Some (resolveTriangleCircle t vertices tOffsetX tOffsetY
                    d cOffsetX cOffsetY radius)
        | BoxCollider _ _ _ _ =>
            Some (Normal (resolveTriangleBox t vertices tOffsetX tOffsetY d))
        | TriangleCollider _ _ _ => None
        end
      else None
  | _, _ => None
  end.

(** [resolveCollision], lines 237-276: the default path. *)
Definition resolveDefault (a b : GameObject) : GameObject * GameObject :=
  let overlapX := (x a + width a / 2) - (x b + width b / 2) in
  let overlapY := (y a + height a / 2) - (y b + height b / 2) in
  let halfWidths := (width a + width b) / 2 in
  let halfHeights := (height a + height b) / 2 in
  if (Math.abs overlapX <? halfWidths) && (Math.abs overlapY <? halfHeights)
  then
    let dx := halfWidths - Math.abs overlapX in
    let dy := halfHeights - Math.abs overlapY in
    let totalMass := mass a + mass b in
    let aShare := mass b / totalMass in
    let bShare := mass a / totalMass in
    if dx <? dy then
      let (a1, b1) :=
        if overlapX >? 0
        then (set_x (x a + dx * aShare) a, set_x (x b - dx * bShare) b)
        else (set_x (x a - dx * aShare) a, set_x (x b + dx * bShare) b) in
      (set_vx 0 a1, set_vx 0 b1)
    else
      let (a1, b1) :=
        if overlapY >? 0
        then (set_y (y a + dy * aShare) a, set_y (y b - dy * bShare) b)
        else (set_y (y a - dy * aShare) a, set_y (y b + dy * bShare) b) in
      (set_vy 0 a1, set_vy 0 b1)
  else (a, b).

(** [function resolveCollision(a, b)], lines 131-277.  The function
    mutates [a] and [b] in place and returns nothing; the model returns
    the two objects as they are after the call. *)
Definition resolveCollision {E : Math.Engine} (a b : GameObject)
  : completion (GameObject * GameObject) :=
  match triangleBranch a b with
  | Some r => cmap (fun b' => (a, b')) r
  | None =>
      match triangleBranch b a with
      | Some r => cmap (fun a' => (a', b)) r
      | None => Normal (resolveDefault a b)
      end
  end.

(* ================================================================== *)
(** ** The integrator and the tick (part_000, [update]) *)
(* ================================================================== *)

Definition tickrate : float := 60.
Definition tickInterval : float := 1000 / tickrate.
Definition PPM : float := 100.
Definition GRAVITY : float := 9.8 * PPM.

(** [const deltaTime = tickInterval / 1000] *)
Definition deltaTime : float := tickInterval / 1000.

(** The callback of [gameObjects.forEach], lines 284-320, in two parts.
    [applyPhysics]: lines 285-313, forces, acceleration, velocity,
    position and the spin of circles. *)
Definition applyPhysics (obj : GameObject) : GameObject :=
  let obj :=
    if hasGravity obj
    then set_forces [Point.mk 0 (mass obj * GRAVITY)] obj
    else obj in
  let totalForceX :=
    fold_left (fun acc force => acc + Point.x force) (forces obj) 0 in
  let totalForceY :=
    fold_left (fun acc force => acc + Point.y force) (forces obj) 0 in
  let obj := set_ax (totalForceX / mass obj) obj in
  let obj := set_ay (totalForceY / mass obj) obj in
  let obj := set_vy (vy obj + ay obj * deltaTime) obj in
  let obj := set_vx (vx obj + ax obj * deltaTime) obj in
  let obj := set_x (x obj + vx obj * deltaTime) obj in
  let obj := set_y (y obj + vy obj * deltaTime) obj in
  match collider obj with
  | Some (CircleCollider _ _ radius) =>
      let angularVelocity := vx obj / radius in
      set_rotation (rotation obj + angularVelocity * deltaTime) obj
  | _ => obj
  end.

(** The condition of the "simple ground collision", line 316;
    [worldHeight] is the global [height] of the canvas. *)
Definition hitsGround (worldHeight : float) (obj : GameObject) : bool :=
  y obj + height obj >? worldHeight.

(** The whole callback: [applyPhysics], then lines 315-319. *)
Definition integrate (worldHeight : float) (obj : GameObject) : GameObject :=
  let obj := applyPhysics obj in
  if hitsGround worldHeight obj
  then set_vy 0 (set_y (worldHeight - height obj) obj)
  else obj.

(** The pairs [(i, j)] visited by the nested loops of lines 323-324. *)
Definition pairs (n : nat) : list (nat * nat) :=
  flat_map (fun i => map (fun j => (i, j)) (seq (S i) (n - S i))) (seq 0 n).

(** How a call of [update] ends: it reaches [render()], or an exception
    leaves it; either way [gameObjects] holds the given list. *)
Inductive tick : Type :=
| Rendered (w : list GameObject)
| Aborted (w : list GameObject).

(** Lines 325-327 for one pair of indices. *)
Definition collidePair {E : Math.Engine} (w : list GameObject) (p : nat * nat)
  : completion (list GameObject) :=
  let (i, j) := p in
  match w !! i, w !! j with
  | Some a, Some b =>
      if isColliding a b then
        cmap (fun r : GameObject * GameObject =>
                <[j := snd r]> (<[i := fst r]> w))
             (resolveCollision a b)
      else Normal w
  | _, _ => Normal w
  end.

Fixpoint collideAll {E : Math.Engine} (ps : list (nat * nat))
    (w : list GameObject) : tick :=
  match ps with
  | [] => Rendered w
  | p :: ps' =>
      match collidePair w p with
      | Normal w' => collideAll ps' w'
      | Throw => Aborted w
      end
  end.

(** [const update = () => ...], lines 279-332, on the list
    [gameObjects]. *)
Definition update {E : Math.Engine} (worldHeight : float)
    (gameObjects : list GameObject) : tick :=
  collideAll (pairs (length gameObjects))
    (map (integrate worldHeight) gameObjects).

(* ================================================================== *)
(** ** The scene built by [init] (part_000, lines 55-71) *)
(* ================================================================== *)

Definition heavy : GameObject :=
  mkGameObject 650 100 30 30 EmptyString
    "#00ff00"%string true 0 0 0 0 7 []
    (Some (BoxCollider 0 0 30 30)) 0.

Definition light : GameObject :=
  mkGameObject 700 350 30 30 EmptyString
    "#0000ff"%string true 0 0 0 0 3 []
    (Some (BoxCollider 0 0 30 30)) 0.

Definition ball : GameObject :=
  mkGameObject 510 20 60 60
    "public/res/basketball.png"%string "#ffff00"%string true
    0 0 0 0 5 []
    (Some (CircleCollider 0 0 30)) 0.

Definition triangleVerts : Point.t * Point.t * Point.t :=
  (Point.mk 0 300,
   Point.mk 0 0,
   Point.mk 600 300).

(** The ramp; [worldHeight] is the global [height]. *)
Definition triangle (worldHeight : float) : GameObject :=
  mkGameObject 450 (worldHeight - 300) 600 300
    EmptyString "#ff0000"%string false
    0 0 0 0 100 []
    (Some (TriangleCollider triangleVerts 0 0)) 0.

(** The ball with centre (550, 900), inside the ramp on a canvas of
    height 1000, falling at 2000 pixels per second. *)
Definition sunkBall : GameObject :=
  set_vy 2000 (set_x 520 (set_y 870 ball)).

(* ================================================================== *)
(** ** Vocabulary of the statements *)
(* ================================================================== *)

(** [c.type === 'triangle'] *)
Definition isTriangle (c : Collider) : bool :=
  match c with TriangleCollider _ _ _ => true | _ => false end.

(** An engine for the closed examples.  [Math.hypot] of finite numbers
    that are not both zero by scaling with the larger magnitude, which
    keeps the squares from overflowing; [Math.atan2] with the special
    cases that the standard lists and, for the others, the arc tangent
    by its continued fraction
    [z / (1 + z^2 / (3 + (2 z)^2 / (5 + ...)))] cut after 60 terms. *)
Definition hypotScaled (a b : float) : float :=
  let a := Math.abs a in
  let b := Math.abs b in
  let hi := if a <? b then b else a in
  let lo := if a <? b then a else b in
  hi * PrimFloat.sqrt (1 + (lo / hi) * (lo / hi)).

Fixpoint atanFraction (n : nat) (k z : float) : float :=
  match n with
  | O => 2 * k + 1
  | S n' =>
      2 * k + 1 + ((k + 1) * z) * ((k + 1) * z) / atanFraction n' (k + 1) z
  end.

(** The arc tangent of [z >= 0]. *)
Definition atanPositive (z : float) : float :=
  if z <=? 1 then z / atanFraction 60 0 z
  else Math.PI / 2 - (1 / z) / atanFraction 60 0 (1 / z).

Definition sampleAtan2 (y0 x0 : float) : float :=
  if is_nan y0 || is_nan x0 then nan
  else
    let r :=
      if is_zero y0 then (if get_sign x0 then Math.PI else 0)
      else if is_infinity y0 then
        (if is_infinity x0
         then (if get_sign x0 then 3 * Math.PI / 4 else Math.PI / 4)
         else Math.PI / 2)
      else if is_infinity x0 then (if get_sign x0 then Math.PI else 0)
      else if is_zero x0 then Math.PI / 2
      else
        let t := atanPositive (Math.abs (y0 / x0)) in
        if get_sign x0 then Math.PI - t else t in
    if get_sign y0 then - r else r.

Definition sampleEngine : Math.Engine :=
  {| Math.hypot_approx := hypotScaled; Math.atan2 := sampleAtan2 |}.

(** The quantities of the default path of [resolveCollision] (part_000,
    lines 239-253), as the code computes them from the nominal boxes of
    the two objects (their own [x], [y], [width], [height]) and from
    their masses. *)
Definition overlapX (a b : GameObject) : float :=
  (x a + width a / 2) - (x b + width b / 2).
Definition overlapY (a b : GameObject) : float :=
  (y a + height a / 2) - (y b + height b / 2).
Definition halfWidths (a b : GameObject) : float := (width a + width b) / 2.
Definition halfHeights (a b : GameObject) : float := (height a + height b) / 2.

(** The guard "Only resolve if overlapping" of line 245. *)
Definition nominalOverlap (a b : GameObject) : bool :=
  (Math.abs (overlapX a b) <? halfWidths a b) &&
  (Math.abs (overlapY a b) <? halfHeights a b).

(** The penetration depths [dx] and [dy] and the two shares. *)
Definition penetrationX (a b : GameObject) : float :=
  halfWidths a b - Math.abs (overlapX a b).
Definition penetrationY (a b : GameObject) : float :=
  halfHeights a b - Math.abs (overlapY a b).
Definition aShare (a b : GameObject) : float := mass b / (mass a + mass b).
Definition bShare (a b : GameObject) : float := mass a / (mass a + mass b).

(** The fields that no function of the simulation assigns to after
    construction. *)
Definition sameStatics (o o' : GameObject) : Prop :=
  width o' = width o /\ height o' = height o /\ mass o' = mass o /\
  hasGravity o' = hasGravity o /\ collider o' = collider o /\
  spriteSrc o' = spriteSrc o /\ color o' = color o.

(** The list held by [gameObjects] when a call of [update] ends. *)
Definition bodies (t : tick) : list GameObject :=
  match t with Rendered w => w | Aborted w => w end.

(** The rational number that a finite [float] stands for; 0 for the
    values that stand for no number. *)
Definition exact (a : float) : Q :=
  match Prim2SF a with
  | S754_zero _ => 0%Q
  | S754_finite s m e =>
      ((if s then -1 else 1) * inject_Z (Z.pos m) * Qpower 2 e)%Q
  | _ => 0%Q
  end.

(** Two boxes of 30 by 30, 50 apart; the collider of the first is
    shifted by 40 to the right, so that the two shapes overlap while the
    nominal boxes do not. *)
Definition shiftedBoxA : GameObject :=
  mkGameObject 0 0 30 30 EmptyString EmptyString
    true 1 1 0 0 1 []
    (Some (BoxCollider 40 0 30 30)) 0.

Definition shiftedBoxB : GameObject :=
  mkGameObject 50 0 30 30 EmptyString EmptyString
    true 2 2 0 0 1 []
    (Some (BoxCollider 0 0 30 30)) 0.

(** Two objects of 30 by 30, 20 apart, each with a box collider of 100
    by 100. *)
Definition wideBoxA : GameObject :=
  mkGameObject 0 0 30 30 EmptyString EmptyString
    true 1 1 0 0 1 []
    (Some (BoxCollider 0 0 100 100)) 0.

Definition wideBoxB : GameObject :=
  mkGameObject 20 0 30 30 EmptyString EmptyString
    true 2 2 0 0 1 []
    (Some (BoxCollider 0 0 100 100)) 0.

(** A ramp like the one of the scene built with the default width and
    height of [GameObject] (30 by 30), and a ball without gravity whose
    centre (430, 280) lies inside the ramp, moving with velocity
    (1, 1). *)
Definition smallBoxRamp : GameObject :=
  mkGameObject 0 0 30 30 EmptyString EmptyString
    false 0 0 0 0 100 []
    (Some (TriangleCollider triangleVerts 0 0)) 0.

Definition floatingBall : GameObject :=
  mkGameObject 400 250 60 60 EmptyString EmptyString
    false 1 1 0 0 5 []
    (Some (CircleCollider 0 0 30)) 0.

(** Two circles of radius 0.1 on bodies at x = 0.2 and x = 0.4: the
    distance of the centres is the sum of the radii. *)
Definition touchingA : GameObject :=
  mkGameObject 0.2 0 0.2 0.2 EmptyString EmptyString
    true 0 0 0 0 1 []
    (Some (CircleCollider 0 0 0.1)) 0.

Definition touchingB : GameObject :=
  mkGameObject 0.4 0 0.2 0.2 EmptyString EmptyString
    true 0 0 0 0 1 []
    (Some (CircleCollider 0 0 0.1)) 0.

(** Two circles of radius 1e200 on bodies at x = 0 and x = 1e200: the
    distance of the centres is half the sum of the radii. *)
Definition hugeCircleA : GameObject :=
  mkGameObject 0 0 2e200 2e200 EmptyString EmptyString
    true 0 0 0 0 1 []
    (Some (CircleCollider 0 0 1e200)) 0.

Definition hugeCircleB : GameObject :=
  mkGameObject 1e200 0 2e200 2e200 EmptyString EmptyString
    true 0 0 0 0 1 []
    (Some (CircleCollider 0 0 1e200)) 0.

(** A ramp with sides of length 1e200, and a ball of radius 2 with
    gravity whose centre (-1, 5e199) is at distance 1 from the first
    edge of the ramp, outside the ramp. *)
Definition hugeRamp : GameObject :=
  mkGameObject 0 0 1e200 1e200 EmptyString EmptyString
    false 0 0 0 0 100 []
    (Some (TriangleCollider
             (Point.mk 0 1e200, Point.mk 0 0, Point.mk 1e200 0) 0 0)) 0.

Definition edgeBall : GameObject :=
  mkGameObject (-3) 5e199 4 4 EmptyString EmptyString
    true 0 0 0 0 1 []
    (Some (CircleCollider 0 0 2)) 0.

(** A body of 30 by 30 at rest at ([x0], [y0]) with mass [m], gravity and
    a box collider that is its nominal box, like the boxes of the
    scene. *)
Definition box30 (x0 y0 m : float) : GameObject :=
  mkGameObject x0 y0 30 30 EmptyString EmptyString
    true 0 0 0 0 m []
    (Some (BoxCollider 0 0 30 30)) 0.

(** A box of 30 by 30 at rest at the origin, with gravity and mass [m]. *)
Definition restingBox (m : float) : GameObject :=
  mkGameObject 0 0 30 30 EmptyString EmptyString
    true 0 0 0 0 m [] None 0.

(* ================================================================== *)
(** ** Facts about binary64 arithmetic *)
(* ================================================================== *)

(** The facts below hold for every [float]; they are read off the
    specification of the primitive operations ([SpecFloat]). *)

Lemma Prim2SF_nan : Prim2SF nan = S754_nan.
Proof. reflexivity. Qed.

(** *** NaN absorbs *)

Lemma add_nan_l (a : float) : nan + a = nan.
Proof.
  apply Prim2SF_inj. rewrite add_spec, Prim2SF_nan.
  unfold SF64add, SFadd. destruct (Prim2SF a); reflexivity.
Qed.

Lemma add_nan_r (a : float) : a + nan = nan.
Proof.
  apply Prim2SF_inj. rewrite add_spec, Prim2SF_nan.
  unfold SF64add, SFadd. destruct (Prim2SF a); reflexivity.
Qed.

Lemma sub_nan_l (a : float) : nan - a = nan.
Proof.
  apply Prim2SF_inj. rewrite sub_spec, Prim2SF_nan.
  unfold SF64sub, SFsub. destruct (Prim2SF a); reflexivity.
Qed.

Lemma sub_nan_r (a : float) : a - nan = nan.
Proof.
  apply Prim2SF_inj. rewrite sub_spec, Prim2SF_nan.
  unfold SF64sub, SFsub. destruct (Prim2SF a); reflexivity.
Qed.

Lemma mul_nan_l (a : float) : nan * a = nan.
Proof.
  apply Prim2SF_inj. rewrite mul_spec, Prim2SF_nan.
  unfold SF64mul, SFmul. destruct (Prim2SF a); reflexivity.
Qed.

Lemma mul_nan_r (a : float) : a * nan = nan.
Proof.
  apply Prim2SF_inj. rewrite mul_spec, Prim2SF_nan.
  unfold SF64mul, SFmul. destruct (Prim2SF a); reflexivity.
Qed.

Lemma div_nan_l (a : float) : nan / a = nan.
Proof.
  apply Prim2SF_inj. rewrite div_spec, Prim2SF_nan.
  unfold SF64div, SFdiv. destruct (Prim2SF a); reflexivity.
Qed.

Lemma div_nan_r (a : float) : a / nan = nan.
Proof.
  apply Prim2SF_inj. rewrite div_spec, Prim2SF_nan.
  unfold SF64div, SFdiv. destruct (Prim2SF a); reflexivity.
Qed.

Lemma ltb_nan_l (a : float) : (nan <? a) = false.
Proof.
  rewrite ltb_spec, Prim2SF_nan. unfold SFltb, SFcompare.
  destruct (Prim2SF a); reflexivity.
Qed.

Lemma ltb_nan_r (a : float) : (a <? nan) = false.
Proof.
  rewrite ltb_spec, Prim2SF_nan. unfold SFltb, SFcompare.
  destruct (Prim2SF a); reflexivity.
Qed.

Lemma leb_nan_l (a : float) : (nan <=? a) = false.
Proof.
  rewrite leb_spec, Prim2SF_nan. unfold SFleb, SFcompare.
  destruct (Prim2SF a); reflexivity.
Qed.

Lemma leb_nan_r (a : float) : (a <=? nan) = false.
Proof.
  rewrite leb_spec, Prim2SF_nan. unfold SFleb, SFcompare.
  destruct (Prim2SF a); reflexivity.
Qed.

Lemma max_nan_l (a : float) : Math.max nan a = nan.
Proof. reflexivity. Qed.

Lemma max_nan_r (a : float) : Math.max a nan = nan.
Proof. unfold Math.max. destruct (is_nan a); reflexivity. Qed.

Lemma min_nan_l (a : float) : Math.min nan a = nan.
Proof. reflexivity. Qed.

Lemma min_nan_r (a : float) : Math.min a nan = nan.
Proof. unfold Math.min. destruct (is_nan a); reflexivity. Qed.

Lemma if_same {A : Type} (c : bool) (v : A) : (if c then v else v) = v.
Proof. destruct c; reflexivity. Qed.

Ltac nan_rewrite :=
  repeat (progress
    rewrite ?add_nan_l, ?add_nan_r, ?sub_nan_l, ?sub_nan_r,
      ?mul_nan_l, ?mul_nan_r, ?div_nan_l, ?div_nan_r,
      ?ltb_nan_l, ?ltb_nan_r, ?leb_nan_l, ?leb_nan_r,
      ?max_nan_l, ?max_nan_r, ?min_nan_l, ?min_nan_r,
      ?andb_false_r, ?andb_false_l, ?orb_false_r, ?if_same).

(** *** Sums and differences *)

Lemma add_comm (a b : float) : a + b = b + a.
Proof.
  apply Prim2SF_inj. rewrite !add_spec. unfold SF64add, SFadd.
  destruct (Prim2SF a) as [sa | sa | | sa ma ea],
           (Prim2SF b) as [sb | sb | | sb mb eb];
    try reflexivity; try (destruct sa, sb; reflexivity).
  rewrite (Z.min_comm eb ea), Z.add_comm. reflexivity.
Qed.

(** The sign given to [binary_round_aux] only signs its result. *)
Lemma binary_round_aux_abs (s s' : bool) (m e : Z) (l : location) :
  SFabs (binary_round_aux prec emax s m e l) =
  SFabs (binary_round_aux prec emax s' m e l).
Proof.
  unfold binary_round_aux.
  destruct (shr_fexp prec emax m e l) as [mrs' e'].
  destruct (shr_fexp prec emax _ e' loc_Exact) as [mrs'' e''].
  destruct (shr_m mrs''); try reflexivity.
  destruct (e'' <=? emax - prec)%Z; reflexivity.
Qed.

Lemma binary_normalize_abs_opp (m e : Z) :
  SFabs (binary_normalize prec emax m e false) =
  SFabs (binary_normalize prec emax (- m) e false).
Proof.
  destruct m as [| p | p]; [reflexivity | |];
    change (- Z.pos p)%Z with (Z.neg p); change (- Z.neg p)%Z with (Z.pos p);
    unfold binary_normalize, binary_round;
    destruct (shl_align p e _) as [mz ez]; apply binary_round_aux_abs.
Qed.

(** [a - b] and [b - a] differ by the sign at most. *)
Lemma SFsub_abs_swap (A B : spec_float) :
  SFabs (SF64sub A B) = SFabs (SF64sub B A).
Proof.
  unfold SF64sub, SFsub.
  destruct A as [sa | sa | | sa ma ea], B as [sb | sb | | sb mb eb];
    try reflexivity; try (destruct sa, sb; reflexivity).
  rewrite (Z.min_comm eb ea).
  set (u := cond_Zopp sa _). set (v := cond_Zopp sb _).
  replace (v - u)%Z with (- (u - v))%Z by ring.
  apply binary_normalize_abs_opp.
Qed.

Lemma SFmul_square_abs (X Y : spec_float) :
  SFabs X = SFabs Y -> SF64mul X X = SF64mul Y Y.
Proof.
  unfold SF64mul, SFmul.
  destruct X as [sx | sx | | sx mx ex], Y as [sy | sy | | sy my ey];
    cbn [SFabs]; intros H; try discriminate; try reflexivity.
  - destruct sx, sy; reflexivity.
  - destruct sx, sy; reflexivity.
  - injection H as -> ->. destruct sx, sy; reflexivity.
Qed.

(** The square of a difference does not depend on the order. *)
Lemma sub_square_swap (a b : float) : (a - b) * (a - b) = (b - a) * (b - a).
Proof.
  apply Prim2SF_inj. rewrite !mul_spec, !sub_spec.
  apply SFmul_square_abs, SFsub_abs_swap.
Qed.

(** [a - a] is +0, or NaN when [a] is not finite. *)
Lemma sub_diag (a : float) : a - a = 0 \/ a - a = nan.
Proof.
  assert (H : Prim2SF (a - a) = S754_zero false \/ Prim2SF (a - a) = S754_nan).
  { rewrite sub_spec. unfold SF64sub, SFsub.
    destruct (Prim2SF a) as [sa | sa | | sa ma ea].
    - left. destruct sa; reflexivity.
    - right. destruct sa; reflexivity.
    - right. reflexivity.
    - left. rewrite Z.sub_diag. reflexivity. }
  destruct H as [H | H]; [left | right]; apply Prim2SF_inj; rewrite H;
    reflexivity.
Qed.

(** A product with +0 is a zero or NaN. *)
Lemma mul_zero_r (a : float) : a * 0 = 0 \/ a * 0 = -0 \/ a * 0 = nan.
Proof.
  assert (H : Prim2SF (a * 0) = S754_zero false \/
              Prim2SF (a * 0) = S754_zero true \/
              Prim2SF (a * 0) = S754_nan).
  { rewrite mul_spec. change (Prim2SF 0) with (S754_zero false).
    unfold SF64mul, SFmul.
    destruct (Prim2SF a) as [sa | sa | | sa ma ea]; auto;
      destruct sa; auto. }
  destruct H as [H | [H | H]]; [left | right; left | right; right];
    apply Prim2SF_inj; rewrite H; reflexivity.
Qed.

(* ================================================================== *)
(** ** The overlap test *)
(* ================================================================== *)

(** C2.  For the nine combinations of collider kinds and all positions
    (all numbers, the special values included), the overlap test gives
    the same answer when the two sides are exchanged, whatever the
    engine. *)
Theorem isCollidingWith_symmetric {E : Math.Engine}
    (ca cb : Collider) (a b : GameObject) :
  isCollidingWith ca cb a b = isCollidingWith cb ca b a.
Proof.
  destruct ca as [aox aoy aw ah | aox aoy ar | avs aox aoy],
           cb as [box boy bw bh | box boy br | bvs box boy];
    try reflexivity.
  - (* box, box *)
    cbn [isCollidingWith BoxCollider.isCollidingWith]. cbv zeta.
    destruct (x a + aox <? x b + box + bw),
             (x b + box <? x a + aox + aw),
             (y a + aoy <? y b + boy + bh),
             (y b + boy <? y a + aoy + ah); reflexivity.
  - (* circle, circle *)
    cbn [isCollidingWith CircleCollider.isCollidingWith]. cbv zeta.
    rewrite (sub_square_swap (x a + aox + ar) (x b + box + br)).
    rewrite (sub_square_swap (y a + aoy + ar) (y b + boy + br)).
    rewrite (add_comm ar br). reflexivity.
  - (* triangle, triangle *)
    cbn [isCollidingWith TriangleCollider.isCollidingWith]. cbv zeta.
    destruct (existsb _ (vertexList (worldVertices avs aox aoy a))),
             (existsb _ (vertexList (worldVertices bvs box boy b)));
      reflexivity.
Qed.

(* ================================================================== *)
(** ** A position that is NaN *)
(* ================================================================== *)

Lemma pointInTriangle_NaN_point (px py : float) (v0 v1 v2 : Point.t) :
  px = nan \/ py = nan ->
  TriangleCollider.pointInTriangle px py v0 v1 v2 = false.
Proof.
  intros [-> | ->]; unfold TriangleCollider.pointInTriangle;
    cbv zeta; nan_rewrite; reflexivity.
Qed.

Lemma circleTouchesEdge_NaN_centre {E : Math.Engine} (cx cy radius : float)
    (e : Point.t * Point.t) :
  cx = nan \/ cy = nan -> circleTouchesEdge cx cy radius e = false.
Proof.
  intros [-> | ->]; destruct e as [v1 v2]; unfold circleTouchesEdge;
    cbv zeta; cbn [Point.x Point.y]; nan_rewrite; reflexivity.
Qed.

Lemma pointInTriangle_NaN_vertices (px py : float) (v0 v1 v2 : Point.t) :
  (Point.x v0 = nan /\ Point.x v1 = nan /\ Point.x v2 = nan) \/
  (Point.y v0 = nan /\ Point.y v1 = nan /\ Point.y v2 = nan) ->
  TriangleCollider.pointInTriangle px py v0 v1 v2 = false.
Proof.
  intros [(H0 & H1 & H2) | (H0 & H1 & H2)];
    unfold TriangleCollider.pointInTriangle; cbv zeta;
    rewrite H0, H1, H2; nan_rewrite; reflexivity.
Qed.

Lemma circleTouchesEdge_NaN_edge {E : Math.Engine} (cx cy radius : float)
    (v1 v2 : Point.t) :
  (Point.x v1 = nan /\ Point.x v2 = nan) \/
  (Point.y v1 = nan /\ Point.y v2 = nan) ->
  circleTouchesEdge cx cy radius (v1, v2) = false.
Proof.
  intros [(H1 & H2) | (H1 & H2)]; unfold circleTouchesEdge;
    cbv zeta; cbn [Point.x Point.y]; rewrite H1, H2;
    nan_rewrite; reflexivity.
Qed.

Ltac nan_overlap :=
  repeat (progress
    (nan_rewrite;
     rewrite ?pointInTriangle_NaN_point by (nan_rewrite; auto);
     rewrite ?pointInTriangle_NaN_vertices
       by (cbn [Point.x Point.y]; nan_rewrite; auto);
     rewrite ?circleTouchesEdge_NaN_centre by (nan_rewrite; auto);
     rewrite ?circleTouchesEdge_NaN_edge
       by (cbn [Point.x Point.y]; nan_rewrite; auto))).

(** The overlap test of two colliders when the position of the first
    object is NaN on one axis. *)
Lemma isCollidingWith_NaN_self {E : Math.Engine} (c other : Collider)
    (a b : GameObject) :
  x a = nan \/ y a = nan -> isCollidingWith c other a b = false.
Proof.
  intros H.
  destruct c as [ox oy w h | ox oy r | [[v0 v1] v2] ox oy],
    other as [px py pw ph | px py pr | [[u0 u1] u2] px py];
    cbn [isCollidingWith BoxCollider.isCollidingWith
           CircleCollider.isCollidingWith TriangleCollider.isCollidingWith];
    cbv zeta;
    cbn [existsb vertexList edges worldVertices TriangleCollider.pointInVerts
           Point.x Point.y];
    cbv beta iota zeta; cbn [Point.x Point.y];
    destruct H as [-> | ->]; nan_rewrite;
    nan_overlap; reflexivity.
Qed.

(** The same with the NaN position in the second object. *)
Lemma isCollidingWith_NaN_other {E : Math.Engine} (c other : Collider)
    (a b : GameObject) :
  x a = nan \/ y a = nan -> isCollidingWith c other b a = false.
Proof.
  intros H.
  destruct c as [ox oy w h | ox oy r | [[v0 v1] v2] ox oy],
    other as [px py pw ph | px py pr | [[u0 u1] u2] px py];
    cbn [isCollidingWith BoxCollider.isCollidingWith
           CircleCollider.isCollidingWith TriangleCollider.isCollidingWith];
    cbv zeta;
    cbn [existsb vertexList edges worldVertices TriangleCollider.pointInVerts
           Point.x Point.y];
    cbv beta iota zeta; cbn [Point.x Point.y];
    destruct H as [-> | ->]; nan_rewrite;
    nan_overlap; reflexivity.
Qed.

(** An object whose position is NaN on one axis is never reported as
    overlapping anything, whatever the two colliders and the other
    object, in either argument order: every comparison the three overlap
    tests make then has a NaN operand and answers false. *)
Theorem NaN_position_never_collides {E : Math.Engine} (a b : GameObject) :
  x a = nan \/ y a = nan ->
  isColliding a b = false /\ isColliding b a = false.
Proof.
  intros H. unfold isColliding.
  destruct (collider a) as [ca |], (collider b) as [cb |];
    try (split; reflexivity).
  split.
  - apply isCollidingWith_NaN_self. exact H.
  - apply isCollidingWith_NaN_other. exact H.
Qed.

(** The ball of the scene once its horizontal position is NaN, against
    the ramp it sits in. *)
Lemma NaN_position_never_collides_witness :
  isColliding (E := sampleEngine) (set_x nan ball) (triangle 1000) = false /\
  isColliding (E := sampleEngine) (triangle 1000) (set_x nan ball) = false.
Proof.
  apply (NaN_position_never_collides (E := sampleEngine)
           (set_x nan ball) (triangle 1000)).
  left. reflexivity.
Defined.

Lemma closestStep_NaN_point (px py : float) (st : option Point.t * float)
    (e : Point.t * Point.t) :
  px = nan \/ py = nan -> closestStep px py st e = st.
Proof.
  intros H. destruct st as [closest minDistSq], e as [v1 v2].
  unfold closestStep, closestPointOnSegment. cbv zeta.
  cbn [Point.x Point.y].
  destruct H as [-> | ->]; nan_rewrite; reflexivity.
Qed.

Lemma closestPointOnTriangle_NaN_point (px py : float)
    (verts : Point.t * Point.t * Point.t) :
  px = nan \/ py = nan -> closestPointOnTriangle px py verts = None.
Proof.
  intros H. destruct verts as [[v0 v1] v2].
  unfold closestPointOnTriangle. cbn [edges fold_left].
  rewrite !(closestStep_NaN_point px py _ _ H).
  cbn [TriangleCollider.pointInVerts].
  rewrite (pointInTriangle_NaN_point px py _ _ _ H). reflexivity.
Qed.

(** [resolveCollision] called on a triangle and a circle that has
    gravity and whose position is NaN on one axis does not complete: no
    edge yields a candidate ([closest] stays [null]), the centre is not
    inside the triangle, and reading [closest.x] throws.  In either
    argument order. *)
Theorem resolveCollision_throws_on_NaN_circle {E : Math.Engine}
    (t c : GameObject) (vertices : Point.t * Point.t * Point.t)
    (tOffsetX tOffsetY cOffsetX cOffsetY radius : float) :
  collider t = Some (TriangleCollider vertices tOffsetX tOffsetY) ->
  collider c = Some (CircleCollider cOffsetX cOffsetY radius) ->
  hasGravity c = true ->
  x c = nan \/ y c = nan ->
  resolveCollision t c = Throw /\ resolveCollision c t = Throw.
Proof.
  intros Ht Hc Hg H.
  assert (Hr : resolveTriangleCircle t vertices tOffsetX tOffsetY
                 c cOffsetX cOffsetY radius = Throw).
  { unfold resolveTriangleCircle. cbv zeta.
    rewrite closestPointOnTriangle_NaN_point; [reflexivity |].
    destruct H as [-> | ->]; nan_rewrite; auto. }
  unfold resolveCollision, triangleBranch.
  rewrite Ht, Hc, Hg, Hr. split; reflexivity.
Qed.

(** The ramp of the scene and the ball once its position is NaN. *)
Lemma resolveCollision_throws_on_NaN_circle_witness :
  resolveCollision (E := sampleEngine) (triangle 1000) (set_x nan ball)
    = Throw /\
  resolveCollision (E := sampleEngine) (set_x nan ball) (triangle 1000)
    = Throw.
Proof.
  apply (resolveCollision_throws_on_NaN_circle (E := sampleEngine)
           (triangle 1000) (set_x nan ball) triangleVerts
           0 0 0 0 30);
    try reflexivity.
  left. reflexivity.
Defined.

(* ================================================================== *)
(** ** Edges of length zero *)
(* ================================================================== *)

Lemma div_zero_zero : 0 / 0 = nan.
Proof. reflexivity. Qed.

(** An edge of length zero (two equal vertices) never makes the
    circle/triangle test answer true, whatever the centre, the radius
    and the vertex: the unit vector of the edge is 0/0 (or NaN already
    when the vertex is not finite), the squared distance is NaN and the
    comparison with the squared radius is false. *)
Lemma circleTouchesEdge_zero_length {E : Math.Engine}
    (cx cy radius vx0 vy0 : float) :
  let v := Point.mk vx0 vy0 in
  circleTouchesEdge cx cy radius (v, v) = false.
Proof.
  intros v. subst v. unfold circleTouchesEdge. cbv zeta.
  cbn [Point.x Point.y].
  destruct (sub_diag vx0) as [-> | ->], (sub_diag vy0) as [-> | ->].
  - change (Math.hypot 0 0) with 0. rewrite div_zero_zero.
    nan_rewrite. reflexivity.
  - nan_rewrite. reflexivity.
  - nan_rewrite. reflexivity.
  - nan_rewrite. reflexivity.
Qed.

Lemma segment_parameter_zero_length (p q : float) :
  (p * 0 + q * 0) / (0 * 0 + 0 * 0) = nan.
Proof.
  destruct (mul_zero_r p) as [-> | [-> | ->]],
           (mul_zero_r q) as [-> | [-> | ->]]; reflexivity.
Qed.

(** An edge of length zero is skipped by [closestPointOnTriangle],
    whatever the point and the vertex: the parameter [t] is 0/0 (or NaN
    already), the squared distance is NaN and the comparison with the
    running minimum is false. *)
Lemma closestStep_zero_length (px py : float) (st : option Point.t * float)
    (vx0 vy0 : float) :
  let v := Point.mk vx0 vy0 in
  closestStep px py st (v, v) = st.
Proof.
  intros v. subst v. destruct st as [closest minDistSq].
  unfold closestStep, closestPointOnSegment. cbv zeta.
  cbn [Point.x Point.y].
  destruct (sub_diag vx0) as [-> | ->], (sub_diag vy0) as [-> | ->].
  - rewrite segment_parameter_zero_length. nan_rewrite. reflexivity.
  - nan_rewrite. reflexivity.
  - nan_rewrite. reflexivity.
  - nan_rewrite. reflexivity.
Qed.

(* ================================================================== *)
(** ** Triangle against circle: a centre inside the triangle *)
(* ================================================================== *)

Lemma is_finite_cases (a : float) :
  is_finite a = true ->
  (exists s, Prim2SF a = S754_zero s) \/
  (exists s m e, Prim2SF a = S754_finite s m e).
Proof.
  unfold is_finite, is_nan, is_infinity.
  rewrite !FloatAxioms.eqb_spec, abs_spec.
  destruct (Prim2SF a) as [s | s | | s m e]; intros H.
  - left. eauto.
  - destruct s; discriminate H.
  - discriminate H.
  - right. eauto.
Qed.

(** [a - a] is +0 for a finite [a]. *)
Lemma sub_diag_finite (a : float) : is_finite a = true -> a - a = 0.
Proof.
  intros H. apply Prim2SF_inj. rewrite sub_spec.
  change (Prim2SF 0) with (S754_zero false).
  unfold SF64sub, SFsub.
  destruct (is_finite_cases a H) as [[s ->] | (s & m & e & ->)].
  - destruct s; reflexivity.
  - rewrite Z.sub_diag. reflexivity.
Qed.

Lemma sub_zero_r (a : float) : a - 0 = a.
Proof.
  apply Prim2SF_inj. rewrite sub_spec.
  change (Prim2SF 0) with (S754_zero false).
  unfold SF64sub, SFsub.
  destruct (Prim2SF a) as [s | s | | s m e]; try reflexivity.
  destruct s; reflexivity.
Qed.

Lemma closestPointOnTriangle_inside (px py : float)
    (verts : Point.t * Point.t * Point.t) :
  TriangleCollider.pointInVerts px py verts = true ->
  closestPointOnTriangle px py verts = Some (Point.mk px py).
Proof.
  intros H. unfold closestPointOnTriangle.
  destruct (fold_left _ _ _) as [closest m]. rewrite H. reflexivity.
Qed.

(** The circle centre is finite and lies in the triangle (border
    included) and the radius is positive: the closest point is the
    centre itself, the distance is [Math.hypot(0, 0) = 0], the normal is
    0/0 and the position of the circle becomes NaN on both axes.  The
    velocity is kept. *)
Lemma resolveTriangleCircle_center_inside {E : Math.Engine}
    (tri c : GameObject) (vertices : Point.t * Point.t * Point.t)
    (tOffsetX tOffsetY cOffsetX cOffsetY radius : float) :
  let cx := x c + cOffsetX + radius in
  let cy := y c + cOffsetY + radius in
  is_finite cx = true -> is_finite cy = true -> (radius >? 0) = true ->
  TriangleCollider.pointInVerts cx cy
    (worldVertices vertices tOffsetX tOffsetY tri) = true ->
  resolveTriangleCircle tri vertices tOffsetX tOffsetY c
    cOffsetX cOffsetY radius
  = Normal (set_y nan (set_x nan c)).
Proof.
  intros cx cy Hx Hy Hr Hin. unfold resolveTriangleCircle. cbv zeta.
  fold cx cy. rewrite (closestPointOnTriangle_inside _ _ _ Hin).
  cbn [Point.x Point.y].
  rewrite (sub_diag_finite cx Hx), (sub_diag_finite cy Hy).
  change (Math.hypot 0 0) with 0. rewrite sub_zero_r, Hr.
  rewrite div_zero_zero. nan_rewrite. cbn [set_x set_y x y vx vy].
  nan_rewrite. reflexivity.
Qed.

(** C3 at a failing input: the ball of the scene placed with its centre
    (550, 900) inside the ramp on a canvas of height 1000.  The overlap
    test answers true and [resolveCollision], in either argument order
    and whatever the engine, completes with the position of the ball
    set to NaN on both axes. *)
Theorem ball_inside_ramp_position_NaN {E : Math.Engine} :
  let c := set_x 520 (set_y 870 ball) in
  let t := triangle 1000 in
  isColliding c t = true /\
  resolveCollision c t = Normal (set_y nan (set_x nan c), t) /\
  resolveCollision t c = Normal (t, set_y nan (set_x nan c)).
Proof.
  intros c t. split; [| split]; vm_compute; reflexivity.
Qed.

(** C9 at a failing input: [sunkBall] against the ramp.  The closest
    point returned for the centre is the centre itself, so the distance
    is 0 and the overlap is the radius, 30 > 0.  The ball is not moved
    by 30 along a unit normal: its position becomes NaN on both axes,
    the velocity (0, 2000) stays as it is. *)
Theorem sunk_ball_not_pushed_out {E : Math.Engine} :
  let t := triangle 1000 in
  closestPointOnTriangle (520 + 0 + 30) (870 + 0 + 30)
    (worldVertices triangleVerts 0 0 t)
  = Some (Point.mk (520 + 0 + 30) (870 + 0 + 30)) /\
  exists c',
    resolveCollision t sunkBall = Normal (t, c') /\
    x c' = nan /\ y c' = nan /\ vx c' = 0 /\ vy c' = 2000.
Proof.
  intros t. split; [vm_compute; reflexivity |].
  exists (set_y nan (set_x nan sunkBall)).
  split; [vm_compute; reflexivity |]. repeat split.
Qed.

(* ================================================================== *)
(** ** The constructor *)
(* ================================================================== *)

(** C4, amended.  The constructor never throws: for every mass, zero and
    negative ones included, it completes with an object that holds the
    arguments as given and the initial values of the other fields. *)
Theorem constructor_accepts_any_mass
    (x0 y0 width0 height0 mass0 : float) (collider0 : option Collider) :
  exists o : GameObject,
    new_GameObject x0 y0 width0 height0 mass0 collider0 = Normal o /\
    mass o = mass0 /\
    x o = x0 /\ y o = y0 /\ width o = width0 /\ height o = height0 /\
    collider o = collider0 /\
    hasGravity o = true /\ vx o = 0 /\ vy o = 0 /\ forces o = [].
Proof.
  eexists. split; [reflexivity |]. repeat split.
Qed.

(** C4 as stated fails: objects of mass 0 and of mass -1 are
    constructed. *)
Lemma constructor_accepts_zero_and_negative_mass :
  (exists o, new_GameObject 0 0 30 30 0 None = Normal o /\ mass o = 0) /\
  (exists o, new_GameObject 0 0 30 30 (-1) None = Normal o /\ mass o = -1).
Proof.
  split; eexists; split; reflexivity.
Qed.

(* ================================================================== *)
(** ** The pairs visited by the collision loops *)
(* ================================================================== *)





(* ================================================================== *)
(** ** A body of mass zero *)
(* ================================================================== *)

(** A body of mass 0 that is under gravity or carries no force loses its
    state in one tick: the acceleration is 0/0, and position and
    velocity are NaN on both axes after the callback of [forEach],
    whatever they were before. *)
Theorem zero_mass_gives_NaN (worldHeight : float) (obj : GameObject) :
  mass obj = 0 ->
  hasGravity obj = true \/ forces obj = [] ->
  let obj' := integrate worldHeight obj in
  x obj' = nan /\ y obj' = nan /\ vx obj' = nan /\ vy obj' = nan.
Proof.
  intros Hm Hf obj'. subst obj'.
  assert (Hp : x (applyPhysics obj) = nan /\ y (applyPhysics obj) = nan /\
               vx (applyPhysics obj) = nan /\ vy (applyPhysics obj) = nan).
  { destruct obj as [x1 y1 w h s c gr vx1 vy1 ax1 ay1 m1 f col rot].
    cbn [mass hasGravity forces] in Hm, Hf. subst m1.
    cbv beta delta [applyPhysics].
    destruct Hf as [-> | ->]; [| destruct gr];
      cbn -[deltaTime]; nan_rewrite;
      destruct col as [[]|]; cbn -[deltaTime]; nan_rewrite;
      repeat split; reflexivity. }
  assert (Hg : hitsGround worldHeight (applyPhysics obj) = false).
  { unfold hitsGround. destruct Hp as (_ & -> & _).
    nan_rewrite. reflexivity. }
  unfold integrate. cbv zeta. rewrite Hg. exact Hp.
Qed.

(** A box of mass 0 moving with velocity (3, 4). *)
Lemma zero_mass_gives_NaN_witness :
  let o := mkGameObject 650 100 30 30 EmptyString
             EmptyString true 3 4 0 0 0 [] None 0 in
  x (integrate 1000 o) = nan /\ y (integrate 1000 o) = nan /\
  vx (integrate 1000 o) = nan /\ vy (integrate 1000 o) = nan.
Proof.
  intros o.
  exact (zero_mass_gives_NaN 1000 o eq_refl (or_introl eq_refl)).
Defined.

(* ================================================================== *)
(** ** What a tick keeps *)
(* ================================================================== *)

Lemma sameStatics_refl (o : GameObject) : sameStatics o o.
Proof. unfold sameStatics. repeat split. Qed.

Lemma sameStatics_trans (o1 o2 o3 : GameObject) :
  sameStatics o1 o2 -> sameStatics o2 o3 -> sameStatics o1 o3.
Proof.
  unfold sameStatics. intros (A1 & A2 & A3 & A4 & A5 & A6 & A7)
                             (B1 & B2 & B3 & B4 & B5 & B6 & B7).
  repeat split; congruence.
Qed.

Lemma applyPhysics_statics (obj : GameObject) :
  sameStatics obj (applyPhysics obj).
Proof.
  unfold sameStatics.
  destruct obj as [x0 y0 w h s c g vx0 vy0 ax0 ay0 m f col rot].
  cbv beta delta [applyPhysics]. cbn -[deltaTime GRAVITY].
  destruct g; cbn -[deltaTime GRAVITY];
    destruct col as [[]|]; cbn -[deltaTime GRAVITY]; repeat split.
Qed.

Lemma resolveTriangleCircle_statics {E : Math.Engine} (tri c c' : GameObject)
    (vertices : Point.t * Point.t * Point.t)
    (tOffsetX tOffsetY cOffsetX cOffsetY radius : float) :
  resolveTriangleCircle tri vertices tOffsetX tOffsetY c
    cOffsetX cOffsetY radius = Normal c' ->
  sameStatics c c'.
Proof.
  cbv beta delta [resolveTriangleCircle]. cbv zeta.
  destruct (closestPointOnTriangle _ _ _); [| discriminate].
  repeat match goal with
         | |- context [if ?b then _ else _] => destruct b
         end; intros H; injection H as <-; apply sameStatics_refl
         || (unfold sameStatics; repeat split).
Qed.

Lemma resolveTriangleBox_statics {E : Math.Engine} (tri b : GameObject)
    (vertices : Point.t * Point.t * Point.t) (tOffsetX tOffsetY : float) :
  sameStatics b (resolveTriangleBox tri vertices tOffsetX tOffsetY b).
Proof.
  cbv beta delta [resolveTriangleBox]. cbv zeta.
  match goal with
  | |- context [if ?c then _ else _] => destruct c
  end; unfold sameStatics; repeat split.
Qed.

Lemma resolveDefault_statics (a b : GameObject) :
  sameStatics a (fst (resolveDefault a b)) /\
  sameStatics b (snd (resolveDefault a b)).
Proof.
  cbv beta delta [resolveDefault]. cbv zeta.
  repeat match goal with
         | |- context [if ?c then _ else _] => destruct c
         end; unfold sameStatics; cbn [fst snd]; repeat split.
Qed.

Lemma resolveCollision_statics {E : Math.Engine} (a b a' b' : GameObject) :
  resolveCollision a b = Normal (a', b') ->
  sameStatics a a' /\ sameStatics b b'.
Proof.
  assert (Hdef : Normal (resolveDefault a b) = Normal (a', b') ->
                 sameStatics a a' /\ sameStatics b b').
  { intros H. injection H as H.
    pose proof (resolveDefault_statics a b) as [H1 H2].
    rewrite H in H1, H2. split; assumption. }
  unfold resolveCollision, triangleBranch.
  destruct (collider a) as [[? ? ? ? | ? ? ? | avs aox aoy] |];
    destruct (collider b) as [[? ? ? ? | ? ? ? | bvs box boy] |];
    destruct (hasGravity a), (hasGravity b); cbn [cmap];
    try exact Hdef;
    try (intros H; injection H as <- <-; split;
         [apply sameStatics_refl | apply resolveTriangleBox_statics]);
    try (intros H; injection H as <- <-; split;
         [apply resolveTriangleBox_statics | apply sameStatics_refl]);
    match goal with
    | |- context [resolveTriangleCircle ?t ?v ?x ?y ?c ?ox ?oy ?r] =>
        destruct (resolveTriangleCircle t v x y c ox oy r) as [c' |] eqn:R;
        [| discriminate];
        apply resolveTriangleCircle_statics in R;
        cbn [cmap]; intros H; injection H as <- <-; split;
        [apply sameStatics_refl || exact R | apply sameStatics_refl || exact R]
    end.
Qed.

Lemma Forall2_statics_insert (w0 w : list GameObject) (i : nat)
    (o o' : GameObject) :
  Forall2 sameStatics w0 w -> w !! i = Some o -> sameStatics o o' ->
  Forall2 sameStatics w0 (<[i := o']> w).
Proof.
  intros HF Hi Hs.
  destruct (Forall2_lookup_r _ _ _ _ _ HF Hi) as (o0 & Hi0 & H0).
  rewrite <- (list_insert_id w0 i o0 Hi0).
  apply Forall2_insert; [exact HF |].
  eapply sameStatics_trans; eassumption.
Qed.

(** One pair of the collision loops: when the pair is dealt with
    without an exception, every body keeps its statics. *)
Lemma collidePair_statics {E : Math.Engine} (w0 w w' : list GameObject)
    (p : nat * nat) :
  Forall2 sameStatics w0 w -> collidePair w p = Normal w' ->
  Forall2 sameStatics w0 w'.
Proof.
  intros HF. unfold collidePair. destruct p as [i j].
  destruct (w !! i) as [a |] eqn:Hi; [| intros H; injection H as <-; exact HF].
  destruct (w !! j) as [b |] eqn:Hj; [| intros H; injection H as <-; exact HF].
  destruct (isColliding a b); [| intros H; injection H as <-; exact HF].
  destruct (resolveCollision a b) as [[a' b'] |] eqn:Hr; [| discriminate].
  cbn [cmap fst snd]. intros H; injection H as <-.
  apply resolveCollision_statics in Hr. destruct Hr as [Ha Hb].
  destruct (decide (i = j)) as [-> | Hne].
  - rewrite list_insert_insert_eq.
    assert (a = b) by congruence. subst b.
    eapply Forall2_statics_insert; eassumption.
  - eapply Forall2_statics_insert; [| | exact Hb].
    + eapply Forall2_statics_insert; eassumption.
    + rewrite list_lookup_insert_ne by exact Hne. exact Hj.
Qed.

Lemma collideAll_statics {E : Math.Engine} (ps : list (nat * nat))
    (w0 w : list GameObject) :
  Forall2 sameStatics w0 w ->
  Forall2 sameStatics w0 (bodies (collideAll ps w)).
Proof.
  revert w. induction ps as [| p ps IH]; intros w HF; cbn [collideAll];
    [exact HF |].
  destruct (collidePair w p) as [w1 |] eqn:Hp; [| exact HF].
  apply IH. exact (collidePair_statics w0 w w1 p HF Hp).
Qed.

Lemma integrate_statics (worldHeight : float) (l : list GameObject) :
  Forall2 sameStatics l (map (integrate worldHeight) l).
Proof.
  induction l as [| o l IH]; constructor; [| exact IH].
  unfold integrate. cbv zeta.
  pose proof (applyPhysics_statics o) as Hs.
  set (q := applyPhysics o) in *. clearbody q.
  destruct (hitsGround worldHeight q); [| exact Hs].
  eapply sameStatics_trans; [exact Hs |].
  unfold sameStatics. cbn. repeat split.
Qed.

(** A call of [update] ends by reaching [render] or by an exception of
    [resolveCollision]; either way [gameObjects] then holds as many
    bodies as before, and each body has kept its width, height, mass,
    gravity flag, collider, sprite and colour. *)
Theorem update_keeps_bodies {E : Math.Engine} (worldHeight : float)
    (gameObjects : list GameObject) :
  let w' := bodies (update worldHeight gameObjects) in
  Forall2 sameStatics gameObjects w' /\ length w' = length gameObjects.
Proof.
  intros w'.
  assert (HF : Forall2 sameStatics gameObjects w').
  { apply collideAll_statics, integrate_statics. }
  split; [exact HF |]. symmetry. eapply Forall2_length. exact HF.
Qed.

(* ================================================================== *)
(** ** The constants of the script *)
(* ================================================================== *)

(** The constants of the simulation as the numbers the script computes:
    [9.8 * 100] is 980.0000000000001, [1000 / 60] is 16.666666666666668
    and the time step is 0.016666666666666666 seconds. *)
Theorem constants_as_computed :
  GRAVITY = 980.0000000000001 /\
  tickInterval = 16.666666666666668 /\
  deltaTime = 0.016666666666666666.
Proof.
  repeat split; vm_compute; reflexivity.
Qed.

(* ================================================================== *)
(** ** A tick that does not reach [render] *)
(* ================================================================== *)

(** For the centre of [edgeBall] every squared length that
    [closestPointOnTriangle] computes on [hugeRamp] overflows: no edge
    yields a candidate, the centre is not inside, and the result is
    [null]. *)
Lemma closestPointOnTriangle_overflow :
  closestPointOnTriangle (-3 + 0 + 2) (5e199 + 0 + 2)
    (worldVertices (Point.mk 0 1e200, Point.mk 0 0, Point.mk 1e200 0)
       0 0 hugeRamp)
  = None.
Proof. vm_compute. reflexivity. Qed.

(** The overlap test of [hugeRamp] and [edgeBall] on an engine whose
    [Math.hypot(0, -1e200)] is 1e200. *)
Lemma isColliding_hugeRamp {E : Math.Engine} :
  Math.hypot 0 (-1e200) = 1e200 ->
  isColliding hugeRamp edgeBall = true /\
  isColliding edgeBall hugeRamp = true.
Proof.
  intros H.
  assert (H' : Math.hypot_approx 0 (-1e200) = 1e200) by exact H.
  vm_compute in H'.
  split; vm_compute; rewrite H'; vm_compute; reflexivity.
Qed.

(** [update] can end with an exception.  On an engine whose
    [Math.hypot(0, -1e200)] is 1e200, the ramp with sides of length
    1e200 and the ball at distance 1 from its first edge overlap, in
    the scene as in the list after the physics step;
    [resolveCollision] throws on the pair in either order, on every
    engine, because [closestPointOnTriangle] returns [null]; and the
    call of [update] on the two bodies ends after the physics step,
    without reaching [render]. *)
Theorem update_can_abort {E : Math.Engine} :
  Math.hypot 0 (-1e200) = 1e200 ->
  isColliding hugeRamp edgeBall = true /\
  resolveCollision hugeRamp edgeBall = Throw /\
  resolveCollision edgeBall hugeRamp = Throw /\
  update 2e200 [hugeRamp; edgeBall]
    = Aborted (map (integrate 2e200) [hugeRamp; edgeBall]) /\
  update 2e200 [edgeBall; hugeRamp]
    = Aborted (map (integrate 2e200) [edgeBall; hugeRamp]).
Proof.
  intros H.
  assert (H' : Math.hypot_approx 0 (-1e200) = 1e200) by exact H.
  vm_compute in H'.
  split; [apply isColliding_hugeRamp; exact H |].
  split; [vm_compute; reflexivity |].
  split; [vm_compute; reflexivity |].
  split; vm_compute; rewrite H'; vm_compute; reflexivity.
Qed.

(** The engine of the examples computes [Math.hypot(0, -1e200)] as
    1e200. *)
Lemma update_can_abort_witness :
  update (E := sampleEngine) 2e200 [hugeRamp; edgeBall]
    = Aborted (map (integrate 2e200) [hugeRamp; edgeBall]).
Proof.
  destruct (update_can_abort (E := sampleEngine) eq_refl)
    as (_ & _ & _ & H & _).
  exact H.
Defined.

(* ================================================================== *)
(** ** The default path of [resolveCollision] *)
(* ================================================================== *)

(** Without a triangle, [resolveCollision] is the default path. *)
Lemma resolveCollision_default {E : Math.Engine}
    (a b : GameObject) (ca cb : Collider) :
  collider a = Some ca -> collider b = Some cb ->
  isTriangle ca = false -> isTriangle cb = false ->
  resolveCollision a b = Normal (resolveDefault a b).
Proof.
  intros Ha Hb Hta Htb. unfold resolveCollision, triangleBranch.
  rewrite Ha, Hb. destruct ca, cb; try discriminate; reflexivity.
Qed.

(** The default path when the guard of line 245 is false. *)
Lemma resolveDefault_apart (a b : GameObject) :
  nominalOverlap a b = false -> resolveDefault a b = (a, b).
Proof.
  unfold nominalOverlap, overlapX, overlapY, halfWidths, halfHeights,
    resolveDefault.
  cbv zeta. intros ->. reflexivity.
Qed.

(** The default path along x: the computed [dx] is below [dy]. *)
Lemma resolveDefault_along_x (a b : GameObject) :
  nominalOverlap a b = true ->
  (penetrationX a b <? penetrationY a b) = true ->
  resolveDefault a b =
  (set_vx 0
     (set_x (if overlapX a b >? 0
             then x a + penetrationX a b * aShare a b
             else x a - penetrationX a b * aShare a b) a),
   set_vx 0
     (set_x (if overlapX a b >? 0
             then x b - penetrationX a b * bShare a b
             else x b + penetrationX a b * bShare a b) b)).
Proof.
  unfold nominalOverlap, penetrationX, penetrationY, aShare, bShare,
    overlapX, overlapY, halfWidths, halfHeights, resolveDefault.
  cbv zeta. intros -> ->.
  destruct (0 <? x a + width a / 2 - (x b + width b / 2)); reflexivity.
Qed.

(** The default path along y: the computed [dx] is not below [dy]. *)
Lemma resolveDefault_along_y (a b : GameObject) :
  nominalOverlap a b = true ->
  (penetrationX a b <? penetrationY a b) = false ->
  resolveDefault a b =
  (set_vy 0
     (set_y (if overlapY a b >? 0
             then y a + penetrationY a b * aShare a b
             else y a - penetrationY a b * aShare a b) a),
   set_vy 0
     (set_y (if overlapY a b >? 0
             then y b - penetrationY a b * bShare a b
             else y b + penetrationY a b * bShare a b) b)).
Proof.
  unfold nominalOverlap, penetrationX, penetrationY, aShare, bShare,
    overlapX, overlapY, halfWidths, halfHeights, resolveDefault.
  cbv zeta. intros -> ->.
  destruct (0 <? y a + height a / 2 - (y b + height b / 2)); reflexivity.
Qed.

(** C1, amended.  Two bodies on the default path (no triangle), all
    quantities as the code computes them in binary64 arithmetic from the
    nominal boxes.  When the nominal boxes overlap on both axes,
    [resolveCollision] resolves along x if the penetration [dx] is below
    [dy] and along y otherwise: [a] moves away from [b] by the
    penetration times [mass_b / (mass_a + mass_b)], [b] the other way by
    the penetration times [mass_a / (mass_a + mass_b)], and both
    velocities along that axis become 0.  When the nominal boxes do not
    overlap, nothing changes, whatever the shapes report. *)
Theorem default_path_resolution {E : Math.Engine}
    (a b : GameObject) (ca cb : Collider) :
  collider a = Some ca -> collider b = Some cb ->
  isTriangle ca = false -> isTriangle cb = false ->
  let px := penetrationX a b in
  let py := penetrationY a b in
  (nominalOverlap a b = true -> (px <? py) = true ->
     resolveCollision a b =
     Normal
       (set_vx 0 (set_x (if overlapX a b >? 0
                         then x a + px * aShare a b
                         else x a - px * aShare a b) a),
        set_vx 0 (set_x (if overlapX a b >? 0
                         then x b - px * bShare a b
                         else x b + px * bShare a b) b)))
  /\
  (nominalOverlap a b = true -> (px <? py) = false ->
     resolveCollision a b =
     Normal
       (set_vy 0 (set_y (if overlapY a b >? 0
                         then y a + py * aShare a b
                         else y a - py * aShare a b) a),
        set_vy 0 (set_y (if overlapY a b >? 0
                         then y b - py * bShare a b
                         else y b + py * bShare a b) b)))
  /\
  (nominalOverlap a b = false -> resolveCollision a b = Normal (a, b)).
Proof.
  intros Ha Hb Hta Htb px py.
  rewrite (resolveCollision_default a b ca cb Ha Hb Hta Htb).
  split; [| split].
  - intros Ho Hc. rewrite (resolveDefault_along_x a b Ho Hc). reflexivity.
  - intros Ho Hc. rewrite (resolveDefault_along_y a b Ho Hc). reflexivity.
  - intros Ho. rewrite (resolveDefault_apart a b Ho). reflexivity.
Qed.

(** The box [light] of the scene moved next to [heavy]: the penetration
    is 10 along x and 20 along y, the shares are 3/10 and 7/10 as
    binary64 quotients, [heavy] moves to x = 647 and the other box to
    x = 677. *)
Lemma default_path_resolution_witness :
  let b := set_x 670 (set_y 110 light) in
  resolveCollision (E := sampleEngine) heavy b =
  Normal (set_vx 0 (set_x 647 heavy), set_vx 0 (set_x 677 b)).
Proof.
  intros b.
  destruct (default_path_resolution (E := sampleEngine) heavy b
              (BoxCollider 0 0 30 30) (BoxCollider 0 0 30 30)
              eq_refl eq_refl eq_refl eq_refl) as [Hx _].
  exact (Hx eq_refl eq_refl).
Defined.

(** C1 as stated fails: the shapes of [shiftedBoxA] and [shiftedBoxB]
    overlap and the pair is on the default path, yet [resolveCollision]
    leaves both objects as they are, with velocities (1, 1) and (2, 2). *)
Lemma default_path_ignores_shape_overlap :
  isColliding (E := sampleEngine) shiftedBoxA shiftedBoxB = true /\
  resolveCollision (E := sampleEngine) shiftedBoxA shiftedBoxB
    = Normal (shiftedBoxA, shiftedBoxB) /\
  vx shiftedBoxA = 1 /\ vy shiftedBoxA = 1 /\
  vx shiftedBoxB = 2 /\ vy shiftedBoxB = 2.
Proof.
  split; [vm_compute; reflexivity |].
  split; [vm_compute; reflexivity |]. repeat split.
Qed.

(** The axis is chosen on the rounded penetrations.  For the boxes of
    30 by 30 at (0.1, 0) and (20.3, 20.2) the penetration of the exact
    positions is smaller along x, the code computes
    [dx = 9.800000000000004] and [dy = 9.799999999999997], and resolves
    along y. *)
Example rounded_penetrations_choose_the_axis {E : Math.Engine} :
  let a := box30 0.1 0 7 in
  let b := box30 20.3 20.2 3 in
  (30 - (exact (x b) - exact (x a)) < 30 - (exact (y b) - exact (y a)))%Q /\
  penetrationX a b = 9.800000000000004 /\
  penetrationY a b = 9.799999999999997 /\
  resolveCollision a b =
  Normal (set_vy 0 (set_y (-2.939999999999999) a),
          set_vy 0 (set_y 27.059999999999995 b)).
Proof.
  intros a b. repeat split; vm_compute; reflexivity.
Qed.

(** The shares follow the formula whatever the masses are.  With masses
    -3 and 1 the shares are -0.5 and 1.5: the body of mass 1 is moved by
    15 and the other by 5.  With masses 1.5e308 and 1e308 the sum is
    +Infinity, both shares are 0 and neither body is moved. *)
Example shares_for_unusual_masses {E : Math.Engine} :
  (let a := box30 0 0 (-3) in
   let b := box30 20 0 1 in
   aShare a b = -0.5 /\ bShare a b = 1.5 /\
   resolveCollision a b = Normal (set_vx 0 (set_x 5 a), set_vx 0 (set_x 35 b)))
  /\
  (let a := box30 0 0 1.5e308 in
   let b := box30 20 0 1e308 in
   aShare a b = 0 /\ bShare a b = 0 /\
   resolveCollision a b = Normal (set_vx 0 a, set_vx 0 b)).
Proof.
  repeat split; vm_compute; reflexivity.
Qed.

(* ================================================================== *)
(** ** Box against box after the default path *)
(* ================================================================== *)

(** C8, amended.  Two bodies with box colliders whose nominal boxes
    overlap as the code computes it.  [resolveCollision] completes on
    the default path and acts on one axis only: along x when the
    penetration [dx] is below [dy], else along y.  On that axis both
    velocities are 0 afterwards and the positions are moved by the
    penetration times the mass shares; the position and the velocity on
    the other axis are those from before the call. *)
Theorem box_pair_stopped_along_resolved_axis {E : Math.Engine}
    (a b : GameObject)
    (aOffsetX aOffsetY aWidth aHeight : float)
    (bOffsetX bOffsetY bWidth bHeight : float) :
  collider a = Some (BoxCollider aOffsetX aOffsetY aWidth aHeight) ->
  collider b = Some (BoxCollider bOffsetX bOffsetY bWidth bHeight) ->
  nominalOverlap a b = true ->
  let px := penetrationX a b in
  let py := penetrationY a b in
  exists a' b',
    resolveCollision a b = Normal (a', b') /\
    if px <? py
    then vx a' = 0 /\ vx b' = 0 /\
         x a' = (if overlapX a b >? 0 then x a + px * aShare a b
                 else x a - px * aShare a b) /\
         x b' = (if overlapX a b >? 0 then x b - px * bShare a b
                 else x b + px * bShare a b) /\
         y a' = y a /\ y b' = y b /\ vy a' = vy a /\ vy b' = vy b
    else vy a' = 0 /\ vy b' = 0 /\
         y a' = (if overlapY a b >? 0 then y a + py * aShare a b
                 else y a - py * aShare a b) /\
         y b' = (if overlapY a b >? 0 then y b - py * bShare a b
                 else y b + py * bShare a b) /\
         x a' = x a /\ x b' = x b /\ vx a' = vx a /\ vx b' = vx b.
Proof.
  intros Ha Hb Ho px py.
  rewrite (resolveCollision_default a b _ _ Ha Hb eq_refl eq_refl).
  subst px py.
  destruct (penetrationX a b <? penetrationY a b) eqn:Hc.
  - rewrite (resolveDefault_along_x a b Ho Hc).
    eexists _, _. split; [reflexivity |]. cbn. repeat split.
  - rewrite (resolveDefault_along_y a b Ho Hc).
    eexists _, _. split; [reflexivity |]. cbn. repeat split.
Qed.

(** [heavy] and the box [light] moved next to it: resolved along x. *)
Lemma box_pair_stopped_along_resolved_axis_witness :
  let b := set_x 670 (set_y 110 light) in
  exists a' b',
    resolveCollision (E := sampleEngine) heavy b = Normal (a', b') /\
    vx a' = 0 /\ vx b' = 0 /\ x a' = 647 /\ x b' = 677 /\
    y a' = y heavy /\ y b' = y b /\ vy a' = vy heavy /\ vy b' = vy b.
Proof.
  intros b.
  exact (box_pair_stopped_along_resolved_axis (E := sampleEngine) heavy b
           0 0 30 30 0 0 30 30 eq_refl eq_refl eq_refl).
Defined.

(** C8 as stated fails: [wideBoxA] and [wideBoxB] carry box colliders,
    overlap, and are resolved on the default path along x (both [vx]
    become 0, the objects move to x = -5 and x = 25); the overlap test
    on the result still answers true. *)
Lemma wide_boxes_overlap_after_resolution :
  let a' := set_vx 0 (set_x (-5) wideBoxA) in
  let b' := set_vx 0 (set_x 25 wideBoxB) in
  isColliding (E := sampleEngine) wideBoxA wideBoxB = true /\
  resolveCollision (E := sampleEngine) wideBoxA wideBoxB = Normal (a', b') /\
  isColliding (E := sampleEngine) a' b' = true.
Proof.
  intros a' b'. repeat split; vm_compute; reflexivity.
Qed.

(** The two boxes of the scene, whose colliders are their nominal boxes,
    at (650, 100) and (650, 101.6): [resolveCollision] pushes them apart
    along y by the penetration 28.4, split 3/10 and 7/10; the rounded
    results are y = 91.48 and y = 121.47999999999999, and the overlap
    test on the result still answers true. *)
Example scene_boxes_overlap_after_resolution {E : Math.Engine} :
  let b := set_x 650 (set_y 101.6 light) in
  let a' := set_vy 0 (set_y 91.48 heavy) in
  let b' := set_vy 0 (set_y 121.47999999999999 b) in
  isColliding heavy b = true /\
  resolveCollision heavy b = Normal (a', b') /\
  isColliding a' b' = true.
Proof.
  intros b a' b'. repeat split; vm_compute; reflexivity.
Qed.

(* ================================================================== *)
(** ** The gravity test of the triangle branches *)
(* ================================================================== *)

(** The test of line 134 (and of line 186) fails when the second object
    has no gravity, and when the first carries no triangle. *)
Lemma triangleBranch_no_gravity {E : Math.Engine} (t d : GameObject) :
  hasGravity d = false -> triangleBranch t d = None.
Proof.
  intros Hg. unfold triangleBranch. rewrite Hg.
  destruct (collider t) as [[| |]|]; destruct (collider d); reflexivity.
Qed.

Lemma triangleBranch_not_triangle {E : Math.Engine} (d t : GameObject)
    (cd : Collider) :
  collider d = Some cd -> isTriangle cd = false -> triangleBranch d t = None.
Proof.
  intros Hd Hc. unfold triangleBranch. rewrite Hd.
  destruct cd; [reflexivity | reflexivity | discriminate].
Qed.

(** C10, amended.  [t] carries a triangle collider and [d] a circle or
    a box collider.

    When [hasGravity d] is false, [resolveCollision], called with the
    two in either order, takes the default path on the nominal boxes:
    if the nominal boxes overlap it pushes the two apart along x when
    the penetration [dx] is below [dy] and along y otherwise, the first
    argument by the penetration times [mass_b / (mass_a + mass_b)], the
    second by the penetration times [mass_a / (mass_a + mass_b)], and
    sets both velocities along that axis to 0; if the nominal boxes do
    not overlap it changes nothing.

    When [hasGravity d] is true, the call is answered by the triangle
    branch, in either order, and whenever it completes the triangle
    object is the one passed in. *)
Theorem triangle_branches_gated_by_gravity {E : Math.Engine}
    (t d : GameObject) (vertices : Point.t * Point.t * Point.t)
    (tOffsetX tOffsetY : float) (cd : Collider) :
  collider t = Some (TriangleCollider vertices tOffsetX tOffsetY) ->
  collider d = Some cd -> isTriangle cd = false ->
  (hasGravity d = false ->
   forall a b : GameObject,
     (a = t /\ b = d) \/ (a = d /\ b = t) ->
     let px := penetrationX a b in
     let py := penetrationY a b in
     (nominalOverlap a b = true -> (px <? py) = true ->
        resolveCollision a b =
        Normal
          (set_vx 0 (set_x (if overlapX a b >? 0
                            then x a + px * aShare a b
                            else x a - px * aShare a b) a),
           set_vx 0 (set_x (if overlapX a b >? 0
                            then x b - px * bShare a b
                            else x b + px * bShare a b) b)))
     /\
     (nominalOverlap a b = true -> (px <? py) = false ->
        resolveCollision a b =
        Normal
          (set_vy 0 (set_y (if overlapY a b >? 0
                            then y a + py * aShare a b
                            else y a - py * aShare a b) a),
           set_vy 0 (set_y (if overlapY a b >? 0
                            then y b - py * bShare a b
                            else y b + py * bShare a b) b)))
     /\
     (nominalOverlap a b = false -> resolveCollision a b = Normal (a, b)))
  /\
  (hasGravity d = true ->
   let specific :=
     match cd with
     | CircleCollider cOffsetX cOffsetY radius =>
         resolveTriangleCircle t vertices tOffsetX tOffsetY
           d cOffsetX cOffsetY radius
     | _ => Normal (resolveTriangleBox t vertices tOffsetX tOffsetY d)
     end in
   resolveCollision t d = cmap (fun d' => (t, d')) specific /\
   resolveCollision d t = cmap (fun d' => (d', t)) specific /\
   (forall t' d', resolveCollision t d = Normal (t', d') -> t' = t) /\
   (forall d' t', resolveCollision d t = Normal (d', t') -> t' = t)).
Proof.
  intros Ht Hd Hc. split.
  - intros Hg a b Hab px py.
    assert (Hr : resolveCollision a b = Normal (resolveDefault a b)).
    { unfold resolveCollision.
      destruct Hab as [[-> ->] | [-> ->]].
      - rewrite (triangleBranch_no_gravity t d Hg).
        rewrite (triangleBranch_not_triangle d t cd Hd Hc). reflexivity.
      - rewrite (triangleBranch_not_triangle d t cd Hd Hc).
        rewrite (triangleBranch_no_gravity t d Hg). reflexivity. }
    rewrite Hr. split; [| split].
    + intros Ho Hlt. rewrite (resolveDefault_along_x a b Ho Hlt). reflexivity.
    + intros Ho Hlt. rewrite (resolveDefault_along_y a b Ho Hlt). reflexivity.
    + intros Ho. rewrite (resolveDefault_apart a b Ho). reflexivity.
  - intros Hg specific.
    assert (Hb : triangleBranch t d = Some specific).
    { unfold triangleBranch. rewrite Ht, Hd, Hg.
      destruct cd; [reflexivity | reflexivity | discriminate]. }
    assert (H1 : resolveCollision t d = cmap (fun d' => (t, d')) specific).
    { unfold resolveCollision. rewrite Hb. reflexivity. }
    assert (H2 : resolveCollision d t = cmap (fun d' => (d', t)) specific).
    { unfold resolveCollision.
      rewrite (triangleBranch_not_triangle d t cd Hd Hc), Hb. reflexivity. }
    split; [exact H1 |]. split; [exact H2 |]. split.
    + intros t' d'. rewrite H1. destruct specific; cbn; congruence.
    + intros d' t'. rewrite H2. destruct specific; cbn; congruence.
Qed.

(** The ramp of the scene on a canvas of height 1000.  Against the ball
    [sunkBall], which has gravity, the call is answered by the
    triangle-against-circle branch in both orders.  Against a ball
    without gravity of mass 100 at (400, 690), whose nominal box
    overlaps that of the ramp by 10 along x and 50 along y, the default
    path moves the ramp to x = 455 and the ball to x = 395. *)
Lemma triangle_branches_gated_by_gravity_witness :
  let specific :=
    resolveTriangleCircle (E := sampleEngine) (triangle 1000)
      triangleVerts 0 0 sunkBall 0 0 30 in
  let d :=
    mkGameObject 400 690 60 60 EmptyString EmptyString
      false 1 1 0 0 100 [] (Some (CircleCollider 0 0 30)) 0 in
  (resolveCollision (E := sampleEngine) (triangle 1000) sunkBall
     = cmap (fun d' => (triangle 1000, d')) specific /\
   resolveCollision (E := sampleEngine) sunkBall (triangle 1000)
     = cmap (fun d' => (d', triangle 1000)) specific) /\
  resolveCollision (E := sampleEngine) (triangle 1000) d
    = Normal (set_vx 0 (set_x 455 (triangle 1000)), set_vx 0 (set_x 395 d)).
Proof.
  intros specific d. split.
  - destruct (triangle_branches_gated_by_gravity (E := sampleEngine)
                (triangle 1000) sunkBall triangleVerts 0 0
                (CircleCollider 0 0 30) eq_refl eq_refl eq_refl)
      as [_ Hg].
    destruct (Hg eq_refl) as (H1 & H2 & _).
    split; [exact H1 | exact H2].
  - destruct (triangle_branches_gated_by_gravity (E := sampleEngine)
                (triangle 1000) d triangleVerts 0 0
                (CircleCollider 0 0 30) eq_refl eq_refl eq_refl)
      as [Hn _].
    destruct (Hn eq_refl (triangle 1000) d (or_introl (conj eq_refl eq_refl)))
      as [Hx _].
    exact (Hx eq_refl eq_refl).
Defined.

(** C10 as stated fails: [smallBoxRamp] carries a triangle collider,
    [floatingBall] a circle collider and no gravity, and the two
    collide; [resolveCollision] pushes neither and leaves the velocity
    (1, 1) of the ball as it is. *)
Lemma no_push_for_floating_ball_in_ramp :
  hasGravity floatingBall = false /\
  isColliding (E := sampleEngine) smallBoxRamp floatingBall = true /\
  resolveCollision (E := sampleEngine) smallBoxRamp floatingBall
    = Normal (smallBoxRamp, floatingBall) /\
  vx floatingBall = 1 /\ vy floatingBall = 1.
Proof.
  split; [reflexivity |].
  split; [vm_compute; reflexivity |].
  split; [vm_compute; reflexivity |]. split; reflexivity.
Qed.

(* ================================================================== *)
(** ** Rounding in the geometric tests and in the integrator *)
(* ================================================================== *)

(** C5.  The point (2, 2) lies on the edge from (1, 1) to (3, 3) of the
    triangle (1, 1), (3, 3), (0.1, 0).  [pointInTriangle] classifies it
    as outside with the vertices in this order and as inside with the
    vertices in the reverse order. *)
Theorem pointInTriangle_depends_on_winding :
  let v0 := Point.mk 1 1 in
  let v1 := Point.mk 3 3 in
  let v2 := Point.mk 0.1 0 in
  TriangleCollider.pointInTriangle 2 2 v0 v1 v2 = false /\
  TriangleCollider.pointInTriangle 2 2 v2 v1 v0 = true.
Proof.
  intros v0 v1 v2. split; vm_compute; reflexivity.
Qed.

(** C6.  The circles of [touchingA] and [touchingB] have radius 0.1 and
    their centres, taken as exact numbers, are apart by the sum of the
    radii along x and by nothing along y: the circles touch.  The
    overlap test, which compares the rounded squares
    0.03999999999999998 and 0.04000000000000001, answers true.  The
    circles of [hugeCircleA] and [hugeCircleB] have radius 1e200 and
    centres 1e200 apart, less than the sum of the radii; both squares
    overflow to +Infinity and the test answers false. *)
Theorem circle_circle_test_misclassifies {E : Math.Engine} :
  (let r := exact 0.1 in
   let cxA := (exact (x touchingA) + 0 + r)%Q in
   let cxB := (exact (x touchingB) + 0 + r)%Q in
   let cyA := (exact (y touchingA) + 0 + r)%Q in
   let cyB := (exact (y touchingB) + 0 + r)%Q in
   (cxB - cxA == r + r)%Q /\ (cyB - cyA == 0)%Q /\
   isColliding touchingA touchingB = true /\
   isColliding touchingB touchingA = true)
  /\
  (let r := exact 1e200 in
   let cxA := (exact (x hugeCircleA) + 0 + r)%Q in
   let cxB := (exact (x hugeCircleB) + 0 + r)%Q in
   let cyA := (exact (y hugeCircleA) + 0 + r)%Q in
   let cyB := (exact (y hugeCircleB) + 0 + r)%Q in
   (0 < cxB - cxA)%Q /\ (cxB - cxA < r + r)%Q /\ (cyB - cyA == 0)%Q /\
   isColliding hugeCircleA hugeCircleB = false /\
   isColliding hugeCircleB hugeCircleA = false).
Proof.
  split; repeat split; vm_compute; reflexivity.
Qed.

(** C7.  One call of [update] on a single box at rest with gravity, far
    above the ground, so that nothing collides.  With mass 7 the
    acceleration is 980.0000000000001 and [vy] becomes
    16.333333333333336, the product [GRAVITY * deltaTime]; with mass 0.3
    the acceleration is 980 and [vy] becomes 16.333333333333332. *)
Theorem gravity_increment_depends_on_mass {E : Math.Engine} :
  GRAVITY * deltaTime = 16.333333333333336 /\
  (exists o, update 1000 [restingBox 7] = Rendered [o] /\
             ay o = 980.0000000000001 /\ vy o = 16.333333333333336) /\
  (exists o, update 1000 [restingBox 0.3] = Rendered [o] /\
             ay o = 980 /\ vy o = 16.333333333333332).
Proof.
  split; [vm_compute; reflexivity |].
  split.
  - exists (integrate 1000 (restingBox 7)).
    repeat split; vm_compute; reflexivity.
  - exists (integrate 1000 (restingBox 0.3)).
    repeat split; vm_compute; reflexivity.
Qed.
